(** * atlas-images-offchain: the two bulk-edit tools, embedded and verified

    [replace_ids.py] replaces the [id] field of every record of a JSON array
    with the entry of a text file at the same position; [update_image_urls.py]
    rewrites the [meta.image] URL of every record.

    Python values are embedded as follows.
    - [str] is a sequence of Unicode code points: [list N].
    - the values [json.load] builds are the inductive [json]; a [dict] is an
      association list in insertion order, read by its first binding and
      written in place (or appended when the key is new), as Python does.
    - [json.load] builds one fresh object per JSON node, so no two positions
      of the loaded list share an object: the list is a tree, the variable
      [entry] of the loops is a position in it, and a store through [entry]
      is a store at that position.
    - [print], [sys.exit] and uncaught exceptions are the effects of a small
      state-and-error monad [M] over the process state. A line that quotes a
      string of the document is printed only if the encoding of stdout has
      its code points; the other lines are made of the program's own text,
      numbers, paths of the command line and messages of exceptions, which
      the terminal of the run is taken to encode. The list the two
      transformers receive as [json_data] and change in place is a
      component of that state, so what is left of it after an exit or an
      exception can be stated; a transformer is called on a list [data] by
      running it in a state whose [json_data] is [data]. *)

From Stdlib Require Import ZArith NArith List Bool Lia String Ascii Decimal DecimalNat.
From Stdlib Require Import Floats.SpecFloat.
From stdpp Require Import base list.

Set Warnings "-register-all".

Local Open Scope N_scope.

(** ** Strings *)

Abbreviation str := (list N).

(** A literal of the source, as code points. *)
Fixpoint py (s : string) : str :=
  match s with
  | EmptyString => []
  | String a r => N_of_ascii a :: py r
  end.

Arguments py : simpl never.

Definition str_eqb (a b : str) : bool := bool_decide (a = b).

(** [s.startswith(p)] *)
Fixpoint startswith (p s : str) : bool :=
  match p, s with
  | [], _ => true
  | _ :: _, [] => false
  | a :: p', b :: s' => (a =? b) && startswith p' s'
  end.

(** [str(n)] for a non-negative [int]. *)
Fixpoint str_of_uint (d : Decimal.uint) : str :=
  match d with
  | Nil => []
  | D0 r => 48 :: str_of_uint r
  | D1 r => 49 :: str_of_uint r
  | D2 r => 50 :: str_of_uint r
  | D3 r => 51 :: str_of_uint r
  | D4 r => 52 :: str_of_uint r
  | D5 r => 53 :: str_of_uint r
  | D6 r => 54 :: str_of_uint r
  | D7 r => 55 :: str_of_uint r
  | D8 r => 56 :: str_of_uint r
  | D9 r => 57 :: str_of_uint r
  end.

Definition str_of_nat (n : nat) : str := str_of_uint (Nat.to_uint n).

(** [str.isspace] on one code point: the characters [str.strip()] removes. *)
Definition isspace (c : N) : bool :=
  ((9 <=? c) && (c <=? 13)) || ((28 <=? c) && (c <=? 32))
  || (c =? 133) || (c =? 160) || (c =? 5760)
  || ((8192 <=? c) && (c <=? 8202)) || (c =? 8232) || (c =? 8233)
  || (c =? 8239) || (c =? 8287) || (c =? 12288).

Fixpoint lstrip (s : str) : str :=
  match s with
  | [] => []
  | c :: r => if isspace c then lstrip r else s
  end.

Definition rstrip (s : str) : str := reverse (lstrip (reverse s)).

(** [s.strip()] *)
Definition strip (s : str) : str := rstrip (lstrip s).

(** ** JSON values and dicts *)

Inductive json :=
| JNull
| JBool (b : bool)
| JInt (n : Z)
| JFloat (x : spec_float)
| JStr (s : str)
| JList (items : list json)
| JDict (fields : list (str * json)).

Abbreviation dict := (list (str * json)).

(** [d[k]], [None] for a missing key. *)
Fixpoint dict_get (k : str) (d : dict) : option json :=
  match d with
  | [] => None
  | (k', v) :: r => if str_eqb k k' then Some v else dict_get k r
  end.

(** [d[k] = v]: the binding is overwritten where it stands, a new key goes
    to the end. *)
Fixpoint dict_set (k : str) (v : json) (d : dict) : dict :=
  match d with
  | [] => [(k, v)]
  | (k', v') :: r =>
      if str_eqb k k' then (k', v) :: r else (k', v') :: dict_set k v r
  end.

Definition keys (d : dict) : list str := map fst d.

(** Python truth value, the test of [if image_url:]. *)
Definition truthy (v : json) : bool :=
  match v with
  | JNull => false
  | JBool b => b
  | JInt n => negb (n =? 0)%Z
  | JFloat (S754_zero _) => false
  | JFloat _ => true
  | JStr s => negb (bool_decide (s = []))
  | JList l => negb (bool_decide (length l = 0%nat))
  | JDict d => negb (bool_decide (length d = 0%nat))
  end.

(** ** The process: state, exits and exceptions *)

Inductive exception :=
  AttributeError | KeyError | IndexError | TypeError | UnicodeEncodeError.

Inductive outcome (A : Type) :=
| Returned (a : A)
| SystemExit (code : Z)
| Raised (e : exception).
Arguments Returned {A} a.
Arguments SystemExit {A} code.
Arguments Raised {A} e.

(** What a file that a tool opened for writing holds: a whole document, or
    what [json.dump] had written of one when it raised, after
    [open(path, 'w')] had created the file or emptied it. *)
Inductive written :=
| Document (data : list json)
| Incomplete.

(** [json_data] is the list object the tool loaded, [stdout] the lines
    printed so far, [files] the files opened for writing so far, the last
    one last. *)
Record process := Process {
  json_data : list json;
  stdout : list str;
  files : list (str * written)
}.

Definition M (A : Type) : Type := process -> outcome A * process.

Definition ret {A} (a : A) : M A := fun st => (Returned a, st).

Definition bind {A B} (c : M A) (k : A -> M B) : M B :=
  fun st =>
    match c st with
    | (Returned a, st') => k a st'
    | (SystemExit code, st') => (SystemExit code, st')
    | (Raised e, st') => (Raised e, st')
    end.

Notation "'let*' x ':=' c 'in' k" := (bind c (fun x => k))
  (at level 10, x pattern, c at level 100, k at level 200).
Notation "c ';;;' k" := (bind c (fun _ => k))
  (at level 100, k at level 200, right associativity).

Definition raise {A} (e : exception) : M A := fun st => (Raised e, st).

(** [sys.exit(code)] *)
Definition sys_exit {A} (code : Z) : M A := fun st => (SystemExit code, st).

(** [print(line)] for a line made of the program's own text, of numbers,
    of paths of the command line and of messages of exceptions: text of the
    environment of the run, which its terminal is taken to encode. *)
Definition print (line : str) : M unit :=
  fun st => (Returned tt,
             Process (json_data st) (stdout st ++ [line]) (files st)).

(** [print(line)] for a line that quotes [text], a string of the document.
    The line is encoded for stdout with the error handler [strict];
    [encodes] tells the code points the encoding of stdout has. A code point
    it lacks (in UTF-8 a lone surrogate, which the JSON escape of one gives)
    raises [UnicodeEncodeError], and nothing is printed. *)
Definition print_quoting (encodes : N -> bool) (text line : str) : M unit :=
  fun st =>
    if forallb encodes text then print line st
    else (Raised UnicodeEncodeError, st).

(** [len(json_data)] *)
Definition len_json_data : M nat := fun st => (Returned (length (json_data st)), st).

(** The object at position [ref] of [json_data]. *)
Definition deref (ref : nat) : M json :=
  fun st =>
    match json_data st !! ref with
    | Some v => (Returned v, st)
    | None => (Raised IndexError, st)
    end.

(** The object at position [ref] of [json_data] after a store into it. *)
Definition store (ref : nat) (v : json) : M unit :=
  fun st => (Returned tt,
             Process (<[ref := v]> (json_data st)) (stdout st) (files st)).

(** [obj.get(k, default)]: only a dict has the method. *)
Definition get_method (obj : json) (k : str) (default : json) : M json :=
  match obj with
  | JDict d => ret (match dict_get k d with Some v => v | None => default end)
  | _ => raise AttributeError
  end.

(** [obj[k]] for a string key. *)
Definition getitem (obj : json) (k : str) : M json :=
  match obj with
  | JDict d => match dict_get k d with Some v => ret v | None => raise KeyError end
  | _ => raise TypeError
  end.

(** [obj[k] = v] for a string key: the object after the store. *)
Definition setitem (obj : json) (k : str) (v : json) : M json :=
  match obj with
  | JDict d => ret (JDict (dict_set k v d))
  | _ => raise TypeError
  end.

Fixpoint for_each {A} (body : A -> M unit) (xs : list A) : M unit :=
  match xs with
  | [] => ret tt
  | x :: r => body x ;;; for_each body r
  end.

(** A [for] loop that updates a local variable. *)
Fixpoint for_fold {A S} (body : A -> S -> M S) (xs : list A) (acc : S) : M S :=
  match xs with
  | [] => ret acc
  | x :: r => let* acc' := body x acc in for_fold body r acc'
  end.

(** [s.replace(old, new)] for a non-empty [old]: the occurrences of [old]
    are found from left to right, each search starting after the previous
    occurrence; [skip] counts the characters of an occurrence still to be
    passed over. *)
Fixpoint replace_from (old new : str) (skip : nat) (s : str) : str :=
  match s with
  | [] => []
  | c :: r =>
      match skip with
      | S k => replace_from old new k r
      | O =>
          if startswith old s
          then new ++ replace_from old new (length old - 1) r
          else c :: replace_from old new 0 r
      end
  end.

Definition str_replace (old new s : str) : str := replace_from old new 0 s.

(** [enumerate(xs, start)] *)
Fixpoint enumerate {A} (start : nat) (xs : list A) : list (nat * A) :=
  match xs with
  | [] => []
  | x :: r => (start, x) :: enumerate (S start) r
  end.

(** [open(path, 'w')] succeeded, and the file at [path] holds [content] when
    the [with] block is left. *)
Definition opened_for_writing (path : str) (content : written) : M unit :=
  fun st => (Returned tt,
             Process (json_data st) (stdout st)
                     (files st ++ [(path, content)])).

(** What the file system gives a reader: the value, [FileNotFoundError],
    [json.JSONDecodeError] or another [Exception], with [str(e)]. *)
Inductive read_result (A : Type) :=
| ReadOk (a : A)
| ReadFileNotFound
| ReadJSONDecodeError (msg : str)
| ReadException (msg : str).
Arguments ReadOk {A} a.
Arguments ReadFileNotFound {A}.
Arguments ReadJSONDecodeError {A} msg.
Arguments ReadException {A} msg.

(** How the writing of a file fails, with [str(e)]: [open(path, 'w')]
    raises, and the file is as it was; or [json.dump] or the closing of the
    file raises, when [open] has already created the file or emptied it. *)
Inductive write_failure :=
| OpenFailed (msg : str)
| DumpFailed (msg : str).

(** The file system of a run: the decoded text behind a path, the value
    [json.load] parses from a path, and whether and how a write to a path
    fails. *)
Record filesystem := {
  read_text : str -> read_result str;
  load_json : str -> read_result json;
  write_error : str -> option write_failure
}.

(** ** replace_ids.py *)

Module ReplaceIds.

(** [read_ids(ids_file_path)]: the lines a text file yields when iterated.
    The file is opened in text mode, so every line ending (CR LF, CR, LF)
    reaches the program as one LF, and each line but possibly the last
    ends with it. *)
Fixpoint universal_newlines (s : str) : str :=
  match s with
  | [] => []
  | c :: r =>
      if c =? 13 then
        10 :: match r with
              | d :: r' => if d =? 10 then universal_newlines r'
                           else universal_newlines r
              | [] => []
              end
      else c :: universal_newlines r
  end.

Fixpoint split_lines (s : str) : list str :=
  match s with
  | [] => []
  | c :: r =>
      if c =? 10 then [c] :: split_lines r
      else match split_lines r with
           | [] => [[c]]
           | l :: ls => (c :: l) :: ls
           end
  end.

Definition file_lines (text : str) : list str :=
  split_lines (universal_newlines text).

(** [[line.strip() for line in f if line.strip()]] *)
Fixpoint stripped_nonblank (lines : list str) : list str :=
  match lines with
  | [] => []
  | line :: r =>
      if negb (bool_decide (strip line = []))
      then strip line :: stripped_nonblank r
      else stripped_nonblank r
  end.

Definition read_ids (fs : filesystem) (ids_file_path : str) : M (list str) :=
  match read_text fs ids_file_path with
  | ReadOk text => ret (stripped_nonblank (file_lines text))
  | ReadFileNotFound =>
      print (py "Error: The file '" ++ ids_file_path ++ py "' was not found.") ;;;
      sys_exit 1
  | ReadJSONDecodeError msg | ReadException msg =>
      print (py "Error reading '" ++ ids_file_path ++ py "': " ++ msg) ;;;
      sys_exit 1
  end.

Definition read_json (fs : filesystem) (json_file_path : str) : M (list json) :=
  match load_json fs json_file_path with
  | ReadOk data =>
      match data with
      | JList items => ret items
      | _ =>
          print (py "Error: Expected the JSON file to contain a list of objects.") ;;;
          sys_exit 1
      end
  | ReadFileNotFound =>
      print (py "Error: The file '" ++ json_file_path ++ py "' was not found.") ;;;
      sys_exit 1
  | ReadJSONDecodeError msg =>
      print (py "Error: Failed to parse JSON file '" ++ json_file_path
             ++ py "': " ++ msg) ;;;
      sys_exit 1
  | ReadException msg =>
      print (py "Error reading '" ++ json_file_path ++ py "': " ++ msg) ;;;
      sys_exit 1
  end.

(** The list object [read_json] returned becomes the process's [json_data]. *)
Definition bind_json_data (data : list json) : M unit :=
  fun st => (Returned tt, Process data (stdout st) (files st)).

Definition write_json (fs : filesystem) (data : list json)
    (output_file_path : str) : M unit :=
  match write_error fs output_file_path with
  | None =>
      opened_for_writing output_file_path (Document data) ;;;
      print (py "Successfully wrote updated JSON to '" ++ output_file_path
             ++ py "'.")
  | Some (OpenFailed msg) =>
      print (py "Error writing to '" ++ output_file_path ++ py "': " ++ msg) ;;;
      sys_exit 1
  | Some (DumpFailed msg) =>
      opened_for_writing output_file_path Incomplete ;;;
      print (py "Error writing to '" ++ output_file_path ++ py "': " ++ msg) ;;;
      sys_exit 1
  end.

Definition mismatch_message (n_ids n_entries : nat) : str :=
  py "Error: Number of IDs (" ++ str_of_nat n_ids
  ++ py ") does not match number of JSON entries (" ++ str_of_nat n_entries
  ++ py ").".

Definition missing_id_warning (index : nat) : str :=
  py "Warning: Entry #" ++ str_of_nat index ++ py " does not have an 'id' field.".

(** One turn of the loop: [entry] is the object at position [index - 1]. *)
Definition replace_id (item : nat * str) : M unit :=
  let '(index, new_id) := item in
  let* entry := deref (index - 1) in
  let* old_id := get_method entry (py "id") JNull in
  match old_id with
  | JNull => print (missing_id_warning index)
  | _ =>
      let* entry' := setitem entry (py "id") (JStr new_id) in
      store (index - 1) entry'
  end.

(** [replace_ids_in_json(json_data, new_ids)]; [zip] stops with the shorter
    of its two arguments. *)
Definition replace_ids_in_json (new_ids : list str) : M (list json) :=
  let* n := len_json_data in
  (if negb (n =? length new_ids)%nat
   then print (mismatch_message (length new_ids) n) ;;; sys_exit 1
   else ret tt) ;;;
  for_each replace_id (enumerate 1 (take n new_ids)) ;;;
  (fun st => (Returned (json_data st), st)).

Record args := {
  json_file : str;
  ids_file : str;
  output : str
}.

Definition main (fs : filesystem) (a : args) : M unit :=
  let* new_ids := read_ids fs (ids_file a) in
  print (py "Number of new IDs read: " ++ str_of_nat (length new_ids)) ;;;
  let* data := read_json fs (json_file a) in
  bind_json_data data ;;;
  print (py "Number of JSON entries read: " ++ str_of_nat (length data)) ;;;
  let* updated_json := replace_ids_in_json new_ids in
  write_json fs updated_json (output a).

End ReplaceIds.

(** ** update_image_urls.py *)

Module UpdateImageUrls.

Section WithUnicode.

(** The code points [\d] matches in a [str] pattern: the Unicode category
    Nd of the interpreter's character database, which is not part of the
    repository. The theorems that depend on it assume only its ASCII part,
    see [Nd_ascii] below. *)
Variable is_Nd : N -> bool.

(** The code points the encoding of the process's stdout has, a property of
    the terminal of the run. *)
Variable stdout_encodes : N -> bool.

Definition read_json (fs : filesystem) (json_file_path : str) : M (list json) :=
  match load_json fs json_file_path with
  | ReadOk data =>
      match data with
      | JList items => ret items
      | _ =>
          print (py "Error: Expected the JSON file to contain a list of objects.") ;;;
          sys_exit 1
      end
  | ReadFileNotFound =>
      print (py "Error: The file '" ++ json_file_path ++ py "' was not found.") ;;;
      sys_exit 1
  | ReadJSONDecodeError msg =>
      print (py "Error: Failed to parse JSON file '" ++ json_file_path
             ++ py "': " ++ msg) ;;;
      sys_exit 1
  | ReadException msg =>
      print (py "Error reading '" ++ json_file_path ++ py "': " ++ msg) ;;;
      sys_exit 1
  end.

Definition bind_json_data (data : list json) : M unit :=
  fun st => (Returned tt, Process data (stdout st) (files st)).

Definition write_json (fs : filesystem) (data : list json)
    (output_file_path : str) : M unit :=
  match write_error fs output_file_path with
  | None =>
      opened_for_writing output_file_path (Document data) ;;;
      print (py "Successfully wrote updated JSON to '" ++ output_file_path
             ++ py "'.")
  | Some (OpenFailed msg) =>
      print (py "Error writing to '" ++ output_file_path ++ py "': " ++ msg) ;;;
      sys_exit 1
  | Some (DumpFailed msg) =>
      opened_for_writing output_file_path Incomplete ;;;
      print (py "Error writing to '" ++ output_file_path ++ py "': " ++ msg) ;;;
      sys_exit 1
  end.

(** *** The pattern [(Atlas)(\d+)(\.png)$] *)

(** [\d+] is greedy: it first takes the whole run of digits. *)
Fixpoint digit_run (s : str) : nat :=
  match s with
  | c :: r => if is_Nd c then S (digit_run r) else O
  | [] => O
  end.

(** [$] without [re.MULTILINE]: the end of the string, or just before a
    newline that is the last character. *)
Definition at_dollar (s : str) : bool :=
  match s with
  | [] => true
  | [c] => c =? 10
  | _ => false
  end.

(** [(\.png)$] at the start of [s]. *)
Definition match_png_end (s : str) : bool :=
  startswith (py ".png") s && at_dollar (drop 4 s).

(** [(\d+)(\.png)$] with at most [k] digits: when the rest fails, [\d+]
    gives back one digit and the rest is tried again, down to one digit. *)
Fixpoint match_digits (k : nat) (s : str) : option nat :=
  match k with
  | O => None
  | S k' => if match_png_end (drop k s) then Some k else match_digits k' s
  end.

(** The pattern at the start of [s]: the length of group 2 on a match. *)
Definition match_at (s : str) : option nat :=
  if startswith (py "Atlas") s
  then match_digits (digit_run (drop 5 s)) (drop 5 s)
  else None.

(** [re.subn(pattern, r'\1-\2\3', s)]: every position is tried from left to
    right; a match is replaced by its three groups with a hyphen after the
    first, and the scan goes on after the match. *)
Fixpoint subn_from (skip : nat) (s : str) : str * nat :=
  match s with
  | [] => ([], O)
  | c :: r =>
      match skip with
      | S k => subn_from k r
      | O =>
          match match_at s with
          | Some k =>
              let '(out, count) := subn_from (5 + k + 4 - 1) r in
              (py "Atlas" ++ py "-" ++ take k (drop 5 s) ++ py ".png" ++ out,
               S count)
          | None =>
              let '(out, count) := subn_from 0 r in (c :: out, count)
          end
      end
  end.

Definition re_subn (s : str) : str * nat := subn_from 0 s.

Definition old_folder : str := py "atlas-offchain-images".
Definition new_folder : str := py "atlas-images-offchain".

Definition pattern_warning (url : str) : str :=
  py "Warning: URL '" ++ url
  ++ py "' does not match the expected pattern for filename modification.".

(** [update_image_url(url)]; only a [str] has the method [replace]. *)
Definition update_image_url (url : json) : M str :=
  match url with
  | JStr s =>
      let updated_url := str_replace old_folder new_folder s in
      let '(updated_url, count) := re_subn updated_url in
      (if (count =? 0)%nat
       then print_quoting stdout_encodes s (pattern_warning s)
       else ret tt) ;;;
      ret updated_url
  | _ => raise AttributeError
  end.

Definition missing_image_warning (index : nat) : str :=
  py "Warning: Entry #" ++ str_of_nat index
  ++ py " does not have an 'image' field.".

(** [new_image_url != image_url]: a [str] differs from every value that is
    not a [str]. *)
Definition differs (new_image_url : str) (image_url : json) : bool :=
  match image_url with
  | JStr s => negb (str_eqb new_image_url s)
  | _ => true
  end.

(** One turn of the loop. The store
    [json_data[index - 1]['meta']['image'] = new_image_url] changes the dict
    that [json_data[index - 1]['meta']] refers to, so the entry at
    [index - 1] is the old one with that dict updated. *)
Definition rewrite_entry (index : nat) (updated_count : nat) : M nat :=
  let* entry := deref (index - 1) in
  let* meta := get_method entry (py "meta") (JDict []) in
  let* image_url := get_method meta (py "image") (JStr []) in
  if truthy image_url then
    let* new_image_url := update_image_url image_url in
    if differs new_image_url image_url then
      let* e := deref (index - 1) in
      let* m := getitem e (py "meta") in
      let* m' := setitem m (py "image") (JStr new_image_url) in
      let* e' := setitem e (py "meta") m' in
      store (index - 1) e' ;;;
      ret (updated_count + 1)%nat
    else ret updated_count
  else
    print (missing_image_warning index) ;;;
    ret updated_count.

(** [replace_image_urls(json_data)] *)
Definition replace_image_urls : M (list json * nat) :=
  let* n := len_json_data in
  let* updated_count := for_fold rewrite_entry (seq 1 n) O in
  (fun st => (Returned (json_data st, updated_count), st)).

Record args := {
  json_file : str;
  output : str
}.

Definition main (fs : filesystem) (a : args) : M unit :=
  let* data := read_json fs (json_file a) in
  bind_json_data data ;;;
  print (py "Number of JSON entries read: " ++ str_of_nat (length data)) ;;;
  let* (updated_json, updated_count) := replace_image_urls in
  print (py "Number of image URLs updated: " ++ str_of_nat updated_count) ;;;
  write_json fs updated_json (output a).

End WithUnicode.

End UpdateImageUrls.

(** ** Vocabulary of the statements *)

(** The ASCII digits, the least set [\d] can stand for. *)
Definition ascii_digit (c : N) : bool := (48 <=? c) && (c <=? 57).

(** A stdout in UTF-8: it has every code point but the surrogates. *)
Definition utf8_encodes (c : N) : bool :=
  negb ((55296 <=? c) && (c <=? 57343)).

(** A tool's function called on the list [data], nothing printed yet. *)
Definition run {A} (c : M A) (data : list json) : outcome A * process :=
  c (Process data [] []).

Definition is_dict (v : json) : bool :=
  match v with JDict _ => true | _ => false end.

(** The loader was given a parsed document that is an array. *)
Definition loads_list (r : read_result json) : bool :=
  match r with ReadOk (JList _) => true | _ => false end.

(** The [id] of a record as the ID tool sees it: [None] when the key is
    missing or bound to [null]. *)
Definition id_of (v : json) : option json :=
  match v with
  | JDict d =>
      match dict_get (py "id") d with
      | Some JNull | None => None
      | Some x => Some x
      end
  | _ => None
  end.

(** What the ID tool makes of one record. *)
Definition with_new_id (entry : json) (new_id : str) : json :=
  match entry, id_of entry with
  | JDict d, Some _ => JDict (dict_set (py "id") (JStr new_id) d)
  | _, _ => entry
  end.

(** The warnings of the ID tool for the records [entries], the first of
    which has the 1-based number [index]. *)
Fixpoint id_warnings (index : nat) (entries : list json) : list str :=
  match entries with
  | [] => []
  | e :: r =>
      match id_of e with
      | None => ReplaceIds.missing_id_warning index :: id_warnings (S index) r
      | Some _ => id_warnings (S index) r
      end
  end.

(** The URL of a record as the URL tool reads it: [meta.image] when it is
    a string. *)
Definition image_url_of (e : json) : option str :=
  match e with
  | JDict d =>
      match dict_get (py "meta") d with
      | Some (JDict m) =>
          match dict_get (py "image") m with
          | Some (JStr s) => Some s
          | _ => None
          end
      | _ => None
      end
  | _ => None
  end.

Definition is_str (v : json) : bool :=
  match v with JStr _ => true | _ => false end.

(** A record of the data model of the URL tool: an object whose [meta],
    when it has one, is an object whose [image], when it has one, is a
    string (or a value that Python counts as false, such as null). *)
Definition url_record_ok (e : json) : bool :=
  match e with
  | JDict d =>
      match dict_get (py "meta") d with
      | None => true
      | Some (JDict m) =>
          match dict_get (py "image") m with
          | None => true
          | Some v => is_str v || negb (truthy v)
          end
      | Some _ => false
      end
  | _ => false
  end.

(** The two steps of the rewrite on a string: the result and the number of
    matches of the pattern. *)
Definition rewritten (is_Nd : N -> bool) (s : str) : str :=
  fst (UpdateImageUrls.re_subn is_Nd
         (str_replace UpdateImageUrls.old_folder UpdateImageUrls.new_folder s)).

Definition pattern_count (is_Nd : N -> bool) (s : str) : nat :=
  snd (UpdateImageUrls.re_subn is_Nd
         (str_replace UpdateImageUrls.old_folder UpdateImageUrls.new_folder s)).

(** The record has a URL, not empty, that the rewrite changes. *)
Definition url_changes (is_Nd : N -> bool) (e : json) : bool :=
  match image_url_of e with
  | Some s => negb (str_eqb s []) && negb (str_eqb (rewritten is_Nd s) s)
  | None => false
  end.

(** What the URL tool makes of one record. *)
Definition with_new_image (is_Nd : N -> bool) (e : json) : json :=
  match e with
  | JDict d =>
      match dict_get (py "meta") d with
      | Some (JDict m) =>
          match dict_get (py "image") m with
          | Some (JStr s) =>
              if url_changes is_Nd e
              then JDict (dict_set (py "meta")
                            (JDict (dict_set (py "image")
                                      (JStr (rewritten is_Nd s)) m)) d)
              else e
          | _ => e
          end
      | _ => e
      end
  | _ => e
  end.

(** The warnings of the URL tool for one record with the 1-based number
    [index], and for a list of records. *)
Definition url_warning (is_Nd : N -> bool) (index : nat) (e : json) : list str :=
  match image_url_of e with
  | Some (c :: s) =>
      if (pattern_count is_Nd (c :: s) =? 0)%nat
      then [UpdateImageUrls.pattern_warning (c :: s)] else []
  | _ => [UpdateImageUrls.missing_image_warning index]
  end.

Fixpoint url_warnings (is_Nd : N -> bool) (index : nat) (entries : list json)
    : list str :=
  match entries with
  | [] => []
  | e :: r => url_warning is_Nd index e ++ url_warnings is_Nd (S index) r
  end.

(** Stdout can encode the URL of the record, if it has one. *)
Definition url_encodable (encodes : N -> bool) (e : json) : bool :=
  match image_url_of e with
  | Some s => forallb encodes s
  | None => true
  end.

(** The warning of the pattern, if the record gets it, can be printed. *)
Definition warning_prints (is_Nd encodes : N -> bool) (e : json) : bool :=
  match image_url_of e with
  | Some (c :: s) =>
      negb (pattern_count is_Nd (c :: s) =? 0)%nat
      || forallb encodes (c :: s)
  | _ => true
  end.

(** The turn of the loop on the record raises nothing. *)
Definition entry_runs (is_Nd encodes : N -> bool) (e : json) : bool :=
  url_record_ok e && warning_prints is_Nd encodes e.


(** A text file with one line per element of [ids], each ended by a line
    feed. *)
Definition join_lines (ids : list str) : str :=
  concat (map (fun s => s ++ [10]) ids).

(** An ID as [read_ids] returns it: not empty, no whitespace at either
    end, no carriage return and no line feed. *)
Definition clean_id (s : str) : bool :=
  negb (bool_decide (s = []))
  && match head s with Some c => negb (isspace c) | None => true end
  && match last s with Some c => negb (isspace c) | None => true end
  && forallb (fun c => negb (c =? 10) && negb (c =? 13)) s.

(** A proper, non-empty suffix of [u] begins [v]. *)
Definition overlaps (u v : str) : bool :=
  existsb (fun j => startswith (drop j u) v) (seq 1 (length u - 1)).

(** ** Dicts *)

Lemma str_eqb_eq (a b : str) : str_eqb a b = true <-> a = b.
Proof. unfold str_eqb. apply bool_decide_eq_true. Qed.

Lemma str_eqb_refl (a : str) : str_eqb a a = true.
Proof. by apply str_eqb_eq. Qed.

Lemma str_eqb_ne (a b : str) : a <> b -> str_eqb a b = false.
Proof. unfold str_eqb. apply bool_decide_eq_false. Qed.

Lemma dict_get_set_eq k v d : dict_get k (dict_set k v d) = Some v.
Proof.
  induction d as [|[k' v'] r IH]; simpl.
  - by rewrite str_eqb_refl.
  - destruct (str_eqb k k') eqn:E; simpl; rewrite E; [done | exact IH].
Qed.

Lemma dict_get_set_ne k k' v d :
  k' <> k -> dict_get k' (dict_set k v d) = dict_get k' d.
Proof.
  intros Hne. induction d as [|[k0 v0] r IH]; simpl.
  - by rewrite str_eqb_ne.
  - destruct (str_eqb k k0) eqn:E; simpl.
    + apply str_eqb_eq in E. subst k0. by rewrite !str_eqb_ne.
    + by rewrite IH.
Qed.

(** A store to a key that is bound changes one value where it stands. *)
Lemma dict_set_bound k v d :
  dict_get k d <> None ->
  exists i old, d !! i = Some (k, old)
                /\ dict_get k d = Some old
                /\ dict_set k v d = <[i := (k, v)]> d.
Proof.
  induction d as [|[k0 v0] r IH]; simpl; [done|].
  destruct (str_eqb k k0) eqn:E.
  - apply str_eqb_eq in E. subst k0. intros _. by exists O, v0.
  - intros H. destruct (IH H) as (i & old & Hi & Hg & Hs).
    exists (S i), old. simpl. by rewrite Hs.
Qed.

Lemma keys_set_bound k v d :
  dict_get k d <> None -> keys (dict_set k v d) = keys d.
Proof.
  intros H. destruct (dict_set_bound k v d H) as (i & old & Hi & _ & ->).
  unfold keys. rewrite list_fmap_insert. simpl.
  apply list_insert_id. by rewrite list_lookup_fmap, Hi.
Qed.


(** ** The ID tool *)

Lemma lookup_at_length {A} (pre : list A) x rest :
  (pre ++ x :: rest) !! length pre = Some x.
Proof. by apply list_lookup_middle. Qed.

Lemma insert_at_length {A} (pre : list A) x y rest :
  <[length pre := y]> (pre ++ x :: rest) = pre ++ y :: rest.
Proof.
  rewrite insert_app_r_alt by lia. by rewrite Nat.sub_diag.
Qed.

Lemma for_each_cons {A} (body : A -> M unit) x r :
  for_each body (x :: r) = (body x ;;; for_each body r).
Proof. reflexivity. Qed.

(** One turn of the loop of [replace_ids_in_json] on a record that is an
    object. *)
Lemma replace_id_step pre e rest new_id out fl :
  is_dict e = true ->
  ReplaceIds.replace_id (S (length pre), new_id) (Process (pre ++ e :: rest) out fl)
  = (Returned tt,
     Process (pre ++ with_new_id e new_id :: rest)
             (out ++ id_warnings (S (length pre)) [e]) fl).
Proof.
  intros Hd. destruct e as [| | | | | |d]; try discriminate Hd.
  unfold ReplaceIds.replace_id, bind, deref. simpl json_data.
  replace (S (length pre) - 1)%nat with (length pre) by lia.
  rewrite lookup_at_length.
  unfold with_new_id, id_warnings, id_of, get_method, ret.
  destruct (dict_get (py "id") d) as [v|] eqn:Hid.
  - destruct v; unfold print, setitem, store, ret; simpl;
      rewrite ?insert_at_length, ?app_nil_r; reflexivity.
  - unfold print. reflexivity.
Qed.

(** The whole loop, started at the record after [pre]. *)
Lemma replace_id_loop rest : forall pre new_ids out fl,
  length new_ids = length rest ->
  forallb is_dict rest = true ->
  for_each ReplaceIds.replace_id (enumerate (S (length pre)) new_ids)
           (Process (pre ++ rest) out fl)
  = (Returned tt,
     Process (pre ++ zip_with with_new_id rest new_ids)
             (out ++ id_warnings (S (length pre)) rest) fl).
Proof.
  induction rest as [|e rest IH]; intros pre new_ids out fl Hlen Hd.
  - destruct new_ids; [|discriminate]. simpl. by rewrite !app_nil_r.
  - destruct new_ids as [|new_id new_ids]; [discriminate|].
    simpl in Hd. apply andb_true_iff in Hd as [He Hd].
    change (enumerate (S (length pre)) (new_id :: new_ids))
      with ((S (length pre), new_id) :: enumerate (S (S (length pre))) new_ids).
    rewrite for_each_cons. unfold bind at 1.
    rewrite replace_id_step by done.
    specialize (IH (pre ++ [with_new_id e new_id]) new_ids).
    rewrite length_app in IH. simpl in IH.
    replace (length pre + 1)%nat with (S (length pre)) in IH by lia.
    rewrite <- !app_assoc in IH. simpl in IH.
    rewrite IH by (simpl in Hlen; (lia || done)).
    simpl. rewrite <- app_assoc. simpl.
    by destruct (id_of e).
Qed.

(** With equal lengths and records that are objects, the function returns
    the list, each record rewritten by [with_new_id]. *)
Lemma replace_ids_in_json_returns st new_ids :
  length (json_data st) = length new_ids ->
  forallb is_dict (json_data st) = true ->
  ReplaceIds.replace_ids_in_json new_ids st
  = (Returned (zip_with with_new_id (json_data st) new_ids),
     Process (zip_with with_new_id (json_data st) new_ids)
             (stdout st ++ id_warnings 1 (json_data st)) (files st)).
Proof.
  intros Hlen Hd. destruct st as [data out fl]. simpl in *.
  unfold ReplaceIds.replace_ids_in_json, bind, len_json_data. simpl.
  rewrite Hlen, Nat.eqb_refl. simpl.
  rewrite firstn_all.
  pose proof (replace_id_loop data [] new_ids out fl) as L. simpl in L.
  rewrite L by done. reflexivity.
Qed.

(** With unequal lengths the function prints the message and exits. *)
Lemma replace_ids_in_json_exits st new_ids :
  length (json_data st) <> length new_ids ->
  ReplaceIds.replace_ids_in_json new_ids st
  = (SystemExit 1,
     Process (json_data st)
             (stdout st ++ [ReplaceIds.mismatch_message (length new_ids)
                                                        (length (json_data st))])
             (files st)).
Proof.
  intros Hlen. unfold ReplaceIds.replace_ids_in_json, bind, len_json_data.
  apply Nat.eqb_neq in Hlen. rewrite Hlen. reflexivity.
Qed.

Lemma forallb_lookup {A} (p : A -> bool) (l : list A) i x :
  forallb p l = true -> l !! i = Some x -> p x = true.
Proof.
  intros H Hi. rewrite forallb_forall in H. apply H.
  apply list_elem_of_In, list_elem_of_lookup. eauto.
Qed.

Lemma with_new_id_unchanged e new_id :
  id_of e = None -> with_new_id e new_id = e.
Proof. unfold with_new_id. destruct e; try done. by intros ->. Qed.

Lemma with_new_id_dict d new_id :
  exists d', with_new_id (JDict d) new_id = JDict d'
    /\ keys d' = keys d
    /\ (forall k, k <> py "id" -> dict_get k d' = dict_get k d)
    /\ match dict_get (py "id") d with
       | None | Some JNull => d' = d
       | Some _ => dict_get (py "id") d' = Some (JStr new_id)
       end.
Proof.
  unfold with_new_id, id_of.
  destruct (dict_get (py "id") d) as [v|] eqn:Hid.
  - assert (Hb : dict_get (py "id") d <> None) by congruence.
    destruct v;
      try (exists d; by repeat split);
      (eexists; split; [reflexivity|];
       split; [by apply keys_set_bound|];
       split; [intros k Hk; by apply dict_get_set_ne|];
       apply dict_get_set_eq).
  - exists d. by repeat split.
Qed.

(** The record number [S (k + i)] gets its warning. *)
Lemma id_warnings_lookup entries : forall k i e,
  entries !! i = Some e -> id_of e = None ->
  In (ReplaceIds.missing_id_warning (S (k + i))) (id_warnings (S k) entries).
Proof.
  induction entries as [|e0 r IH]; intros k i e Hi He; [done|].
  destruct i as [|i]; simpl in *.
  - injection Hi as ->. rewrite He, Nat.add_0_r. by left.
  - specialize (IH (S k) i e Hi He).
    replace (S (k + S i)) with (S (S k + i)) by lia.
    destruct (id_of e0); [exact IH | right; exact IH].
Qed.

(** [str(n)] determines [n]. *)
Lemma str_of_uint_inj a b : str_of_uint a = str_of_uint b -> a = b.
Proof.
  revert b. induction a; intros b H; destruct b; simpl in H;
    try discriminate; try reflexivity;
    injection H as H; f_equal; by apply IHa.
Qed.

Lemma str_of_nat_inj a b : str_of_nat a = str_of_nat b -> a = b.
Proof.
  unfold str_of_nat. intros H. apply str_of_uint_inj in H.
  rewrite <- (DecimalNat.Unsigned.of_to a), <- (DecimalNat.Unsigned.of_to b).
  by rewrite H.
Qed.

(** C1, as the claim states it, fails: a record without an [id] has none
    after the run, although the lengths are equal. *)
Lemma replace_ids_every_id_counterexample :
  length [JDict [(py "name", JStr (py "x"))]] = length [py "a"]
  /\ exists st',
       run (ReplaceIds.replace_ids_in_json [py "a"])
           [JDict [(py "name", JStr (py "x"))]]
       = (Returned [JDict [(py "name", JStr (py "x"))]], st')
       /\ dict_get (py "id") [(py "name", JStr (py "x"))]
          <> Some (JStr (py "a")).
Proof.
  split; [reflexivity|]. eexists. split; [reflexivity|]. discriminate.
Qed.

(** C1, amended: for a RecordSet (a list of objects) and an IdList of equal
    length, the ID-replacement transformer returns the list it was given,
    with as many records in the same order; in every record the keys and
    their order and every field other than [id] are as in the input; the
    [id] of a record that has one which is not null is the IdList entry at
    the record's position, and a record with no [id], or a null one, is
    left as it was. *)
Theorem replace_ids_positional (st : process) (new_ids : list str) :
  length (json_data st) = length new_ids ->
  forallb is_dict (json_data st) = true ->
  exists out st',
    ReplaceIds.replace_ids_in_json new_ids st = (Returned out, st')
    /\ json_data st' = out
    /\ length out = length (json_data st)
    /\ forall i d new_id,
         json_data st !! i = Some (JDict d) ->
         new_ids !! i = Some new_id ->
         exists d',
           out !! i = Some (JDict d')
           /\ keys d' = keys d
           /\ (forall k, k <> py "id" -> dict_get k d' = dict_get k d)
           /\ match dict_get (py "id") d with
              | None | Some JNull => d' = d
              | Some _ => dict_get (py "id") d' = Some (JStr new_id)
              end.
Proof.
  intros Hlen Hd. do 2 eexists.
  split; [by apply replace_ids_in_json_returns|].
  split; [reflexivity|].
  split; [rewrite length_zip_with; lia|].
  intros i d new_id Hi Hn.
  destruct (with_new_id_dict d new_id) as (d' & Hw & Hk & Hf & Hid).
  exists d'. split; [|done].
  apply lookup_zip_with_Some. exists (JDict d), new_id. by rewrite Hw.
Qed.

Lemma replace_ids_positional_witness :
  exists out st',
    ReplaceIds.replace_ids_in_json [py "a"; py "b"]
      (Process [JDict [(py "id", JInt 7); (py "name", JStr (py "x"))];
                JDict [(py "name", JStr (py "y"))]] [] [])
    = (Returned out, st')
    /\ out !! 0%nat
       = Some (JDict [(py "id", JStr (py "a")); (py "name", JStr (py "x"))])
    /\ out !! 1%nat = Some (JDict [(py "name", JStr (py "y"))]).
Proof.
  destruct (replace_ids_positional
              (Process [JDict [(py "id", JInt 7); (py "name", JStr (py "x"))];
                        JDict [(py "name", JStr (py "y"))]] [] [])
              [py "a"; py "b"] eq_refl eq_refl)
    as (out & st' & Hrun & _).
  exists out, st'. split; [exact Hrun|].
  vm_compute in Hrun. injection Hrun as <- _. split; reflexivity.
Defined.

(** C2: for a RecordSet and an IdList of unequal lengths the ID-replacement
    transformer exits with status 1 before any record is touched: the list
    is the one it was given, and the one line printed names both lengths.
    A run of the tool on such inputs ends there, with nothing written. *)
Theorem replace_ids_length_mismatch (st : process) (new_ids : list str) :
  length (json_data st) <> length new_ids ->
  (exists st',
     ReplaceIds.replace_ids_in_json new_ids st = (SystemExit 1, st')
     /\ json_data st' = json_data st
     /\ files st' = files st
     /\ stdout st'
        = stdout st
          ++ [py "Error: Number of IDs (" ++ str_of_nat (length new_ids)
              ++ py ") does not match number of JSON entries ("
              ++ str_of_nat (length (json_data st)) ++ py ")."])
  /\ forall fs a text st0,
       read_text fs (ReplaceIds.ids_file a) = ReadOk text ->
       ReplaceIds.stripped_nonblank (ReplaceIds.file_lines text) = new_ids ->
       load_json fs (ReplaceIds.json_file a) = ReadOk (JList (json_data st)) ->
       exists st',
         ReplaceIds.main fs a st0 = (SystemExit 1, st')
         /\ json_data st' = json_data st
         /\ files st' = files st0
         /\ last (stdout st')
            = Some (ReplaceIds.mismatch_message (length new_ids)
                                                (length (json_data st))).
Proof.
  intros Hlen. split.
  - eexists. split; [by apply replace_ids_in_json_exits|]. by repeat split.
  - intros fs a text st0 Ht Hids Hj.
    unfold ReplaceIds.main, ReplaceIds.read_ids, ReplaceIds.read_json.
    rewrite Ht, Hj, Hids. unfold bind at 1. unfold ret at 1.
    unfold bind at 1. unfold print at 1.
    unfold bind at 1. unfold ret at 1.
    unfold bind at 1. unfold ReplaceIds.bind_json_data at 1.
    unfold bind at 1. unfold print at 1.
    unfold bind at 1.
    rewrite replace_ids_in_json_exits by (simpl; exact Hlen).
    eexists. split; [reflexivity|]. simpl.
    repeat split. by rewrite last_snoc.
Qed.

Lemma replace_ids_length_mismatch_witness :
  exists st',
    ReplaceIds.replace_ids_in_json [py "a"; py "b"]
      (Process [JDict [(py "id", JInt 7)]] [] [])
    = (SystemExit 1, st')
    /\ json_data st' = [JDict [(py "id", JInt 7)]]
    /\ stdout st'
       = [py "Error: Number of IDs (2) does not match number of JSON entries (1)."].
Proof.
  destruct (replace_ids_length_mismatch
              (Process [JDict [(py "id", JInt 7)]] [] []) [py "a"; py "b"])
    as [(st' & Hrun & Hdata & _ & Hout) _].
  - simpl. lia.
  - exists st'. split; [exact Hrun|]. split; [exact Hdata|]. exact Hout.
Defined.

(** What the run makes of a record whose [id] the tool does not see, and of
    its siblings. *)
Lemma replace_ids_skips (st : process) (new_ids : list str) i d :
  length (json_data st) = length new_ids ->
  forallb is_dict (json_data st) = true ->
  json_data st !! i = Some (JDict d) ->
  id_of (JDict d) = None ->
  exists out st',
    ReplaceIds.replace_ids_in_json new_ids st = (Returned out, st')
    /\ json_data st' = out
    /\ out !! i = Some (JDict d)
    /\ In (ReplaceIds.missing_id_warning (S i)) (stdout st')
    /\ forall j dj x new_id,
         json_data st !! j = Some (JDict dj) ->
         dict_get (py "id") dj = Some x -> x <> JNull ->
         new_ids !! j = Some new_id ->
         exists dj',
           out !! j = Some (JDict dj')
           /\ dict_get (py "id") dj' = Some (JStr new_id).
Proof.
  intros Hlen Hd Hi Hid. do 2 eexists.
  split; [by apply replace_ids_in_json_returns|].
  split; [reflexivity|].
  assert (Hn : exists new_id, new_ids !! i = Some new_id).
  { apply lookup_lt_is_Some. rewrite <- Hlen. by eapply lookup_lt_Some. }
  destruct Hn as [new_id Hn].
  split.
  { apply lookup_zip_with_Some. exists (JDict d), new_id.
    by rewrite with_new_id_unchanged. }
  split.
  { simpl. apply in_or_app. right.
    by apply (id_warnings_lookup (json_data st) O i (JDict d)). }
  intros j dj x nj Hj Hx Hnull Hnj.
  destruct (with_new_id_dict dj nj) as (dj' & Hw & _ & _ & Hnew).
  exists dj'. split.
  - apply lookup_zip_with_Some. exists (JDict dj), nj. by rewrite Hw.
  - rewrite Hx in Hnew. by destruct x.
Qed.

(** C7: with lengths equal, a record without an [id] field is the same
    after ID-replacement, so it still has none; its warning, with its
    1-based number, is printed; and the run goes on: every record that has
    an [id] (not null) gets the IdList entry at its position. *)
Theorem replace_ids_missing_id (st : process) (new_ids : list str) i d :
  length (json_data st) = length new_ids ->
  forallb is_dict (json_data st) = true ->
  json_data st !! i = Some (JDict d) ->
  dict_get (py "id") d = None ->
  exists out st' d',
    ReplaceIds.replace_ids_in_json new_ids st = (Returned out, st')
    /\ json_data st' = out
    /\ out !! i = Some (JDict d') /\ d' = d
    /\ dict_get (py "id") d' = None
    /\ In (py "Warning: Entry #" ++ str_of_nat (S i)
           ++ py " does not have an 'id' field.") (stdout st')
    /\ forall j dj x new_id,
         json_data st !! j = Some (JDict dj) ->
         dict_get (py "id") dj = Some x -> x <> JNull ->
         new_ids !! j = Some new_id ->
         exists dj',
           out !! j = Some (JDict dj')
           /\ dict_get (py "id") dj' = Some (JStr new_id).
Proof.
  intros Hlen Hd Hi Hid.
  destruct (replace_ids_skips st new_ids i d Hlen Hd Hi)
    as (out & st' & Hrun & Hdata & Hout & Hw & Hsib).
  { unfold id_of. by rewrite Hid. }
  exists out, st', d. by repeat split.
Qed.

Lemma replace_ids_missing_id_witness :
  exists out st',
    ReplaceIds.replace_ids_in_json [py "a"; py "b"; py "c"]
      (Process [JDict [(py "id", JInt 7)]; JDict [(py "name", JStr (py "y"))];
                JDict [(py "id", JStr (py "old"))]] [] [])
    = (Returned out, st')
    /\ out !! 1%nat = Some (JDict [(py "name", JStr (py "y"))])
    /\ In (py "Warning: Entry #2 does not have an 'id' field.") (stdout st').
Proof.
  destruct (replace_ids_missing_id
              (Process [JDict [(py "id", JInt 7)];
                        JDict [(py "name", JStr (py "y"))];
                        JDict [(py "id", JStr (py "old"))]] [] [])
              [py "a"; py "b"; py "c"] 1%nat [(py "name", JStr (py "y"))]
              eq_refl eq_refl eq_refl eq_refl)
    as (out & st' & d' & Hrun & _ & Hout & -> & _ & Hw & _).
  exists out, st'. split; [exact Hrun|]. split; [exact Hout|exact Hw].
Defined.

(** C9: a record whose [id] is null is handled as one without the field:
    it is the same after the run, so its [id] is still null and is not the
    IdList entry although the lengths match; its warning is printed; and
    the other records are processed. *)
Theorem replace_ids_null_id (st : process) (new_ids : list str) i d :
  length (json_data st) = length new_ids ->
  forallb is_dict (json_data st) = true ->
  json_data st !! i = Some (JDict d) ->
  dict_get (py "id") d = Some JNull ->
  exists out st' d',
    ReplaceIds.replace_ids_in_json new_ids st = (Returned out, st')
    /\ json_data st' = out
    /\ out !! i = Some (JDict d') /\ d' = d
    /\ dict_get (py "id") d' = Some JNull
    /\ (forall new_id, new_ids !! i = Some new_id ->
          dict_get (py "id") d' <> Some (JStr new_id))
    /\ In (py "Warning: Entry #" ++ str_of_nat (S i)
           ++ py " does not have an 'id' field.") (stdout st')
    /\ forall j dj x new_id,
         json_data st !! j = Some (JDict dj) ->
         dict_get (py "id") dj = Some x -> x <> JNull ->
         new_ids !! j = Some new_id ->
         exists dj',
           out !! j = Some (JDict dj')
           /\ dict_get (py "id") dj' = Some (JStr new_id).
Proof.
  intros Hlen Hd Hi Hid.
  destruct (replace_ids_skips st new_ids i d Hlen Hd Hi)
    as (out & st' & Hrun & Hdata & Hout & Hw & Hsib).
  { unfold id_of. by rewrite Hid. }
  exists out, st', d. repeat split; try done.
  intros new_id _. by rewrite Hid.
Qed.

Lemma replace_ids_null_id_witness :
  exists out st',
    ReplaceIds.replace_ids_in_json [py "a"; py "b"]
      (Process [JDict [(py "id", JNull)]; JDict [(py "id", JInt 3)]] [] [])
    = (Returned out, st')
    /\ out !! 0%nat = Some (JDict [(py "id", JNull)])
    /\ In (py "Warning: Entry #1 does not have an 'id' field.") (stdout st')
    /\ out !! 1%nat = Some (JDict [(py "id", JStr (py "b"))]).
Proof.
  destruct (replace_ids_null_id
              (Process [JDict [(py "id", JNull)]; JDict [(py "id", JInt 3)]]
                       [] [])
              [py "a"; py "b"] 0%nat [(py "id", JNull)]
              eq_refl eq_refl eq_refl eq_refl)
    as (out & st' & d' & Hrun & _ & Hout & -> & _ & _ & Hw & _).
  exists out, st'. split; [exact Hrun|]. split; [exact Hout|].
  split; [exact Hw|].
  vm_compute in Hrun. injection Hrun as <- _. reflexivity.
Defined.

(** ** The loader of the IdList *)

Lemma lstrip_spec s :
  exists l, s = l ++ lstrip s
            /\ forallb isspace l = true
            /\ forall c, head (lstrip s) = Some c -> isspace c = false.
Proof.
  induction s as [|c r (l & Hs & Hl & Hh)]; simpl.
  - by exists [].
  - destruct (isspace c) eqn:E.
    + exists (c :: l). simpl. rewrite E, Hl. split; [by f_equal|done].
    + exists []. split; [done|]. split; [done|].
      simpl. intros c' [= <-]. exact E.
Qed.

Lemma forallb_reverse {A} (p : A -> bool) l :
  forallb p (reverse l) = forallb p l.
Proof.
  apply eq_true_iff_eq. rewrite !forallb_forall.
  split; intros H x Hx; apply H;
    apply list_elem_of_In; apply list_elem_of_In in Hx;
    by apply elem_of_reverse.
Qed.

Lemma rstrip_spec s :
  exists r, s = rstrip s ++ r
            /\ forallb isspace r = true
            /\ forall c, last (rstrip s) = Some c -> isspace c = false.
Proof.
  unfold rstrip.
  destruct (lstrip_spec (reverse s)) as (l & Hs & Hl & Hh).
  exists (reverse l). split.
  - rewrite <- reverse_app, <- Hs. by rewrite reverse_involutive.
  - split; [by rewrite forallb_reverse|].
    intros c. rewrite last_reverse. apply Hh.
Qed.

(** [s.strip()] is [s] without a run of whitespace at each end, and has no
    whitespace at either end. *)
Lemma strip_spec s :
  exists l r, s = l ++ strip s ++ r
              /\ forallb isspace l = true
              /\ forallb isspace r = true
              /\ (forall c, head (strip s) = Some c -> isspace c = false)
              /\ (forall c, last (strip s) = Some c -> isspace c = false).
Proof.
  unfold strip.
  destruct (lstrip_spec s) as (l & Hs & Hl & Hh).
  destruct (rstrip_spec (lstrip s)) as (r & Hr & Hrs & Hlast).
  exists l, r. split; [by rewrite <- Hr|]. repeat split; try done.
  intros c Hc. apply Hh. rewrite Hr.
  destruct (rstrip (lstrip s)); [done|exact Hc].
Qed.

Lemma lstrip_blank s : forallb isspace s = true -> lstrip s = [].
Proof.
  induction s as [|c r IH]; simpl; [done|].
  intros [Hc Hr]%andb_true_iff. rewrite Hc. by apply IH.
Qed.

(** A line is blank, empty or all whitespace, exactly when nothing is left
    of it. *)
Lemma strip_blank s : strip s = [] <-> forallb isspace s = true.
Proof.
  split.
  - intros H. destruct (strip_spec s) as (l & r & Hs & Hl & Hr & _).
    rewrite H in Hs. rewrite Hs. simpl. by rewrite forallb_app, Hl, Hr.
  - intros H. unfold strip. by rewrite (lstrip_blank s H).
Qed.

Lemma stripped_nonblank_filter lines :
  ReplaceIds.stripped_nonblank lines
  = map strip (List.filter (fun l => negb (forallb isspace l)) lines).
Proof.
  induction lines as [|l r IH]; simpl; [done|].
  destruct (forallb isspace l) eqn:E; simpl.
  - apply strip_blank in E. rewrite E. simpl. exact IH.
  - rewrite bool_decide_eq_false_2; simpl; [by rewrite IH|].
    intros H. apply strip_blank in H. congruence.
Qed.

(** The lines of a text put together are the text, and a line feed is the
    last character of a line or is not in it. *)
Lemma split_lines_concat s : concat (ReplaceIds.split_lines s) = s.
Proof.
  induction s as [|c r IH]; simpl; [done|].
  destruct (c =? 10); simpl; [by rewrite IH|].
  destruct (ReplaceIds.split_lines r); simpl in *; by rewrite <- IH.
Qed.

Lemma split_lines_shape s :
  Forall (fun l => exists body, (l = body \/ l = body ++ [10])
                                /\ l <> [] /\ ~ In 10 body)
         (ReplaceIds.split_lines s).
Proof.
  induction s as [|c r IH]; simpl; [constructor|].
  destruct (c =? 10) eqn:E.
  - apply N.eqb_eq in E. subst c. constructor; [|exact IH].
    exists []. split; [by right|]. split; [done|]. intros [].
  - apply N.eqb_neq in E.
    destruct (ReplaceIds.split_lines r) as [|l ls].
    + constructor; [|constructor]. exists [c]. split; [by left|].
      split; [done|]. intros [H|[]]. congruence.
    + inversion IH as [|? ? (body & Hl & _ & Hb) Hls]; subst.
      constructor; [|exact Hls]. exists (c :: body). split.
      * destruct Hl as [->| ->]; [by left|by right].
      * split; [done|]. intros [H|H]; [congruence|by apply Hb].
Qed.



(** ** The loader of the JSON document *)

(** C5, as the claim states it, fails: an array whose elements are not
    objects passes the Loader of both tools, and the run ends in the
    transformer, on an uncaught [AttributeError]. *)
Lemma read_json_array_of_non_objects_counterexample :
  ReplaceIds.read_json
    {| read_text := fun _ => ReadOk (py "a");
       load_json := fun _ => ReadOk (JList [JInt 1]);
       write_error := fun _ => None |}
    (py "in.json") (Process [] [] [])
  = (Returned [JInt 1], Process [] [] [])
  /\ UpdateImageUrls.read_json
       {| read_text := fun _ => ReadOk (py "a");
          load_json := fun _ => ReadOk (JList [JInt 1]);
          write_error := fun _ => None |}
       (py "in.json") (Process [] [] [])
     = (Returned [JInt 1], Process [] [] [])
  /\ fst (ReplaceIds.main
            {| read_text := fun _ => ReadOk (py "a");
               load_json := fun _ => ReadOk (JList [JInt 1]);
               write_error := fun _ => None |}
            {| ReplaceIds.json_file := py "in.json";
               ReplaceIds.ids_file := py "ids.txt";
               ReplaceIds.output := py "out.json" |}
            (Process [] [] []))
     = Raised AttributeError
  /\ fst (UpdateImageUrls.main ascii_digit utf8_encodes
            {| read_text := fun _ => ReadOk (py "a");
               load_json := fun _ => ReadOk (JList [JInt 1]);
               write_error := fun _ => None |}
            {| UpdateImageUrls.json_file := py "in.json";
               UpdateImageUrls.output := py "out.json" |}
            (Process [] [] []))
     = Raised AttributeError.
Proof. repeat split; reflexivity. Qed.

(** C5, amended: the JSON Loader of both tools requires the top-level value
    of the parsed document to be an array, whose elements it does not
    check: an array is returned as it is, and anything else (an object, a
    scalar, a syntax error, a file that cannot be read) makes the Loader
    print one line and exit with status 1, which ends the run of either
    tool with the list untouched and nothing written; the line for a parsed
    document that is not an array, such as the object with the one field
    [not], is the shape error. *)
Theorem read_json_requires_array (is_Nd encodes : N -> bool)
    (fs : filesystem) (path : str) (st : process) :
  (forall items, load_json fs path = ReadOk (JList items) ->
     ReplaceIds.read_json fs path st = (Returned items, st)
     /\ UpdateImageUrls.read_json fs path st = (Returned items, st))
  /\ (loads_list (load_json fs path) = false ->
      exists line,
        ReplaceIds.read_json fs path st
        = (SystemExit 1,
           Process (json_data st) (stdout st ++ [line]) (files st))
        /\ UpdateImageUrls.read_json fs path st
           = (SystemExit 1,
              Process (json_data st) (stdout st ++ [line]) (files st))
        /\ (forall v, load_json fs path = ReadOk v ->
              line = py "Error: Expected the JSON file to contain a list of objects.")
        /\ (forall a, ReplaceIds.json_file a = path ->
              exists st',
                ReplaceIds.main fs a st = (SystemExit 1, st')
                /\ json_data st' = json_data st
                /\ files st' = files st)
        /\ (forall a, UpdateImageUrls.json_file a = path ->
              UpdateImageUrls.main is_Nd encodes fs a st
              = (SystemExit 1,
                 Process (json_data st) (stdout st ++ [line]) (files st))))
  /\ (load_json fs path = ReadOk (JDict [(py "not", JStr (py "a list"))]) ->
      ReplaceIds.read_json fs path st
      = (SystemExit 1,
         Process (json_data st)
           (stdout st
            ++ [py "Error: Expected the JSON file to contain a list of objects."])
           (files st))
      /\ UpdateImageUrls.read_json fs path st
         = (SystemExit 1,
            Process (json_data st)
              (stdout st
               ++ [py "Error: Expected the JSON file to contain a list of objects."])
              (files st))).
Proof.
  split; [|split].
  - intros items H. unfold ReplaceIds.read_json, UpdateImageUrls.read_json.
    by rewrite H.
  - intros H.
    unfold ReplaceIds.main, UpdateImageUrls.main, ReplaceIds.read_ids,
      ReplaceIds.read_json, UpdateImageUrls.read_json.
    destruct (load_json fs path) as [[]| | |] eqn:E; try discriminate H;
      (eexists; split; [reflexivity|]; split; [reflexivity|];
       split; [intros v Hv; by inversion Hv|];
       split; [intros a <-; rewrite E;
               destruct (read_text fs (ReplaceIds.ids_file a));
               eexists; (split; [reflexivity|]); by split
              |intros a <-; by rewrite E]).
  - intros H. unfold ReplaceIds.read_json, UpdateImageUrls.read_json.
    by rewrite H.
Qed.

Lemma read_json_requires_array_witness :
  ReplaceIds.read_json
    {| read_text := fun _ => ReadOk (py "a");
       load_json := fun _ => ReadOk (JDict [(py "not", JStr (py "a list"))]);
       write_error := fun _ => None |}
    (py "in.json") (Process [] [] [])
  = (SystemExit 1,
     Process [] [py "Error: Expected the JSON file to contain a list of objects."]
             [])
  /\ UpdateImageUrls.read_json
       {| read_text := fun _ => ReadOk (py "a");
          load_json := fun _ => ReadOk (JDict [(py "not", JStr (py "a list"))]);
          write_error := fun _ => None |}
       (py "in.json") (Process [] [] [])
     = (SystemExit 1,
        Process [] [py "Error: Expected the JSON file to contain a list of objects."]
                []).
Proof.
  apply (read_json_requires_array ascii_digit utf8_encodes
           {| read_text := fun _ => ReadOk (py "a");
              load_json := fun _ => ReadOk (JDict [(py "not", JStr (py "a list"))]);
              write_error := fun _ => None |}
           (py "in.json") (Process [] [] [])).
  reflexivity.
Defined.

(** ** [str.replace] *)

Lemma startswith_take p s :
  startswith p s = true <-> take (length p) s = p.
Proof.
  revert s. induction p as [|a p IH]; intros s; simpl.
  - by rewrite take_0.
  - destruct s as [|b s]; simpl; [split; discriminate|].
    rewrite andb_true_iff, N.eqb_eq, IH. split.
    + intros [-> ->]. done.
    + intros [= -> H]. by rewrite H.
Qed.

Lemma startswith_app p t : startswith p (p ++ t) = true.
Proof. apply startswith_take. by rewrite take_app_length. Qed.

Lemma startswith_inv p s :
  startswith p s = true -> s = p ++ drop (length p) s.
Proof.
  intros H%startswith_take. rewrite <- H at 1. by rewrite take_drop.
Qed.

Lemma replace_from_skip old new x : forall t,
  replace_from old new (length x) (x ++ t) = replace_from old new 0 t.
Proof. induction x as [|c x IH]; intros t; simpl; [by destruct t|apply IH]. Qed.

Lemma str_replace_nil old new : str_replace old new [] = [].
Proof. reflexivity. Qed.

(** At an occurrence of [old] the new string is put and the search goes on
    behind the occurrence. *)
Lemma str_replace_here old new t :
  old <> [] ->
  str_replace old new (old ++ t) = new ++ str_replace old new t.
Proof.
  intros Hne. unfold str_replace.
  destruct old as [|c old']; [done|]. simpl.
  rewrite N.eqb_refl, startswith_app. simpl. f_equal.
  rewrite Nat.sub_0_r. apply replace_from_skip.
Qed.

(** Elsewhere the character is kept. *)
Lemma str_replace_skip old new c r :
  startswith old (c :: r) = false ->
  str_replace old new (c :: r) = c :: str_replace old new r.
Proof. intros H. unfold str_replace. simpl. by rewrite H. Qed.

(** A string without an occurrence of [old] is left as it is. *)
Lemma str_replace_absent old new s :
  (forall i, startswith old (drop i s) = false) ->
  str_replace old new s = s.
Proof.
  induction s as [|c r IH]; intros H; [done|].
  rewrite str_replace_skip by apply (H O).
  f_equal. apply IH. intros i. apply (H (S i)).
Qed.

(** The first occurrence is replaced, and then those behind it. *)
Lemma str_replace_first old new a b :
  old <> [] ->
  (forall i, (i < length a)%nat ->
             startswith old (drop i (a ++ old ++ b)) = false) ->
  str_replace old new (a ++ old ++ b) = a ++ new ++ str_replace old new b.
Proof.
  intros Hne. induction a as [|c a IH]; intros H; simpl.
  - by apply str_replace_here.
  - rewrite str_replace_skip by (apply (H O); simpl; lia).
    f_equal. apply IH. intros i Hi. apply (H (S i)). simpl. lia.
Qed.

Lemma overlaps_false u v j :
  overlaps u v = false -> (1 <= j < length u)%nat ->
  startswith (drop j u) v = false.
Proof.
  intros H Hj. unfold overlaps in H.
  destruct (startswith (drop j u) v) eqn:E; [|done].
  rewrite <- H. symmetry. apply existsb_exists. exists j.
  split; [|exact E]. apply in_seq. lia.
Qed.

Section ReplaceAll.

Variables old new : str.
Hypothesis same_length : length new = length old.
Hypothesis long : (1 < length old)%nat.
Hypothesis old_new : overlaps old new = false.
Hypothesis new_old : overlaps new old = false.
Hypothesis distinct : old <> new.

Lemma old_not_nil : old <> [].
Proof. intros H. rewrite H in long. simpl in long. lia. Qed.

(** An occurrence of [old] that begins in a short context [a] and runs
    into the replaced text was there before the replacement. *)
Lemma occurrence_before s : forall a,
  (length a < length old)%nat ->
  startswith old (a ++ str_replace old new s) = true ->
  startswith old (a ++ s) = true.
Proof.
  induction s as [|c r IH]; intros a Ha H; [exact H|].
  destruct (startswith old (c :: r)) eqn:E.
  - destruct a as [|a0 a']; [exact E|exfalso].
    rewrite (startswith_inv _ _ E), str_replace_here in H by apply old_not_nil.
    apply startswith_take in H.
    assert (Hd : drop (length (a0 :: a')) old
                 = take (length old - length (a0 :: a')) new).
    { rewrite <- H at 1.
      replace (length old)
        with (length (a0 :: a') + (length old - length (a0 :: a')))%nat at 1
        by lia.
      rewrite <- take_drop_commute, drop_app_length.
      by rewrite take_app_le by (rewrite same_length; lia). }
    pose proof (overlaps_false old new (length (a0 :: a')) old_new) as Ho.
    rewrite Hd in Ho.
    assert (startswith (take (length old - length (a0 :: a')) new) new = true).
    { apply startswith_take. rewrite length_take.
      rewrite Nat.min_l by (rewrite same_length; lia). done. }
    rewrite Ho in H0; [done|]. simpl in *. lia.
  - rewrite str_replace_skip in H by done.
    destruct (decide (length a + 1 = length old)%nat) as [Hl|Hl].
    + apply startswith_take. apply startswith_take in H.
      rewrite cons_middle, app_assoc in H |- *.
      rewrite take_app_le in H |- * by (rewrite length_app; simpl; lia).
      exact H.
    + rewrite cons_middle, app_assoc. apply IH.
      * rewrite length_app. simpl. lia.
      * by rewrite <- app_assoc.
Qed.

(** After the replacement no occurrence of [old] is left. *)
Lemma str_replace_all_gone s : forall i,
  startswith old (drop i (str_replace old new s)) = false.
Proof.
  induction s as [s IH] using (induction_ltof1 _ (@length N)).
  unfold ltof in IH. intros i.
  destruct s as [|c r].
  { rewrite str_replace_nil, drop_nil.
    pose proof old_not_nil as Hn. clear -Hn. by destruct old. }
  destruct (startswith old (c :: r)) eqn:E.
  - rewrite (startswith_inv _ _ E), str_replace_here by apply old_not_nil.
    set (t := drop (length old) (c :: r)).
    assert (Ht : (length t < length (c :: r))%nat).
    { unfold t. rewrite length_drop. simpl. lia. }
    destruct (decide (length new <= i)%nat) as [Hi|Hi].
    + rewrite drop_app_ge by done. by apply IH.
    + rewrite drop_app_le by lia.
      destruct (startswith old (drop i new ++ str_replace old new t)) eqn:F;
        [exfalso|done].
      destruct i as [|i].
      * rewrite drop_0 in F. apply startswith_take in F.
        rewrite take_app_le in F by lia.
        rewrite <- same_length, firstn_all in F. by apply distinct.
      * apply occurrence_before in F;
          [|rewrite length_drop, same_length; lia].
        apply startswith_take in F.
        pose proof (overlaps_false new old (S i) new_old) as Ho.
        assert (startswith (drop (S i) new) old = true).
        { apply startswith_take. rewrite <- F at 1.
          rewrite take_take.
          rewrite Nat.min_l by (rewrite length_drop; lia).
          by rewrite take_app_length. }
        rewrite Ho in H; [done|lia].
  - rewrite str_replace_skip by done.
    destruct i as [|i].
    + rewrite drop_0.
      destruct (startswith old (c :: str_replace old new r)) eqn:F; [|done].
      apply (occurrence_before r [c]) in F; [|simpl; lia].
      simpl in F. congruence.
    + simpl. apply IH. simpl. lia.
Qed.

End ReplaceAll.

(** No occurrence of the old folder name is left in a replaced URL. *)
Lemma old_folder_gone s i :
  startswith UpdateImageUrls.old_folder
    (drop i (str_replace UpdateImageUrls.old_folder
                         UpdateImageUrls.new_folder s)) = false.
Proof.
  apply str_replace_all_gone.
  - reflexivity.
  - vm_compute. lia.
  - reflexivity.
  - reflexivity.
  - discriminate.
Qed.

(** ** The filename pattern *)

Section Pattern.

Variable is_Nd : N -> bool.

(** All that is assumed of [\d]: below 128 it is the ten ASCII digits. *)
Hypothesis Nd_ascii : forall c, c < 128 -> is_Nd c = ascii_digit c.

Lemma digit_run_take s : forall k,
  (k <= UpdateImageUrls.digit_run is_Nd s)%nat ->
  forallb is_Nd (take k s) = true /\ (k <= length s)%nat.
Proof.
  induction s as [|c r IH]; intros k Hk; simpl in Hk.
  - assert (k = O) as -> by lia. done.
  - destruct k as [|k]; [simpl; split; [done|lia]|].
    destruct (is_Nd c) eqn:E; [|lia].
    destruct (IH k) as [H1 H2]; [lia|].
    simpl. rewrite E, H1. split; [done|lia].
Qed.

Lemma digit_run_app ds rest :
  forallb is_Nd ds = true ->
  UpdateImageUrls.digit_run is_Nd (ds ++ rest)
  = (length ds + UpdateImageUrls.digit_run is_Nd rest)%nat.
Proof.
  induction ds as [|d ds IH]; simpl; [done|].
  intros [Hd Hs]%andb_true_iff. rewrite Hd. f_equal. by apply IH.
Qed.

Lemma match_digits_inv s : forall n k,
  UpdateImageUrls.match_digits n s = Some k ->
  (1 <= k <= n)%nat /\ UpdateImageUrls.match_png_end (drop k s) = true.
Proof.
  induction n as [|n IH]; intros k H; [discriminate|].
  simpl in H.
  destruct (UpdateImageUrls.match_png_end (drop (S n) s)) eqn:E.
  - injection H as <-. split; [lia|done].
  - destruct (IH k H). split; [lia|done].
Qed.

Lemma match_digits_S n s :
  UpdateImageUrls.match_digits (S n) s
  = if UpdateImageUrls.match_png_end (drop (S n) s) then Some (S n)
    else UpdateImageUrls.match_digits n s.
Proof. reflexivity. Qed.

Lemma at_dollar_inv tail :
  UpdateImageUrls.at_dollar tail = true -> tail = [] \/ tail = [10].
Proof.
  destruct tail as [|c [|? ?]]; simpl; try discriminate; [by left|].
  intros ->%N.eqb_eq. by right.
Qed.

Lemma match_png_end_inv s :
  UpdateImageUrls.match_png_end s = true ->
  exists tail, s = py ".png" ++ tail /\ UpdateImageUrls.at_dollar tail = true.
Proof.
  unfold UpdateImageUrls.match_png_end.
  intros [H1 H2]%andb_true_iff. exists (drop 4 s). split; [|done].
  by apply startswith_inv in H1.
Qed.

(** A match of the pattern at the start of [s] shows the shape of [s]. *)
Lemma match_at_inv s k :
  UpdateImageUrls.match_at is_Nd s = Some k ->
  exists ds tail,
    s = py "Atlas" ++ ds ++ py ".png" ++ tail
    /\ length ds = k /\ ds <> []
    /\ forallb is_Nd ds = true
    /\ UpdateImageUrls.at_dollar tail = true.
Proof.
  unfold UpdateImageUrls.match_at.
  destruct (startswith (py "Atlas") s) eqn:E; [|discriminate].
  apply startswith_inv in E. change (length (py "Atlas")) with 5%nat in E.
  intros H. apply match_digits_inv in H as [Hk Hp].
  apply match_png_end_inv in Hp as (tail & Hd & Ht).
  destruct (digit_run_take (drop 5 s) k) as [Hds Hlen]; [apply Hk|].
  exists (take k (drop 5 s)), tail.
  split; [by rewrite <- Hd, take_drop|].
  split; [rewrite length_take; lia|].
  split; [|done].
  intros Hnil. apply (f_equal length) in Hnil.
  rewrite length_take in Hnil. simpl in Hnil. lia.
Qed.

(** A string of that shape is matched, with all of its digits. *)
Lemma match_at_complete ds tail :
  ds <> [] -> forallb is_Nd ds = true ->
  UpdateImageUrls.at_dollar tail = true ->
  UpdateImageUrls.match_at is_Nd (py "Atlas" ++ ds ++ py ".png" ++ tail)
  = Some (length ds).
Proof.
  intros Hne Hds Ht. unfold UpdateImageUrls.match_at.
  rewrite startswith_app.
  change (drop 5 (py "Atlas" ++ ds ++ py ".png" ++ tail))
    with (ds ++ py ".png" ++ tail).
  rewrite digit_run_app by done.
  assert (Hdot : UpdateImageUrls.digit_run is_Nd (py ".png" ++ tail) = O).
  { change (py ".png" ++ tail) with (46 :: py "png" ++ tail).
    simpl. by rewrite Nd_ascii. }
  rewrite Hdot, Nat.add_0_r.
  destruct (length ds) as [|n] eqn:Hn; [by destruct ds|].
  rewrite match_digits_S, <- Hn, drop_app_length.
  unfold UpdateImageUrls.match_png_end. rewrite startswith_app.
  change (drop 4 (py ".png" ++ tail)) with tail. by rewrite Ht.
Qed.

Lemma subn_from_skip x : forall t,
  UpdateImageUrls.subn_from is_Nd (length x) (x ++ t)
  = UpdateImageUrls.subn_from is_Nd 0 t.
Proof. induction x as [|c x IH]; intros t; simpl; [by destruct t|apply IH]. Qed.

Lemma re_subn_tail tail :
  UpdateImageUrls.at_dollar tail = true ->
  UpdateImageUrls.re_subn is_Nd tail = (tail, O).
Proof. intros [-> | ->]%at_dollar_inv; reflexivity. Qed.

Lemma subn_from_cons c r :
  UpdateImageUrls.subn_from is_Nd 0 (c :: r)
  = match UpdateImageUrls.match_at is_Nd (c :: r) with
    | Some k =>
        let '(out, count) :=
          UpdateImageUrls.subn_from is_Nd (5 + k + 4 - 1) r in
        (py "Atlas" ++ py "-" ++ take k (drop 5 (c :: r)) ++ py ".png" ++ out,
         S count)
    | None =>
        let '(out, count) := UpdateImageUrls.subn_from is_Nd 0 r in
        (c :: out, count)
    end.
Proof. reflexivity. Qed.

Lemma subn_from_match s k :
  UpdateImageUrls.match_at is_Nd s = Some k ->
  UpdateImageUrls.subn_from is_Nd 0 s
  = (py "Atlas" ++ py "-" ++ take k (drop 5 s) ++ py ".png"
     ++ fst (UpdateImageUrls.subn_from is_Nd (5 + k + 4 - 1) (drop 1 s)),
     S (snd (UpdateImageUrls.subn_from is_Nd (5 + k + 4 - 1) (drop 1 s)))).
Proof.
  destruct s as [|c r]; [discriminate|]. intros H.
  rewrite subn_from_cons, H. change (drop 1 (c :: r)) with r.
  by destruct (UpdateImageUrls.subn_from is_Nd (5 + k + 4 - 1) r).
Qed.

(** At a match the hyphen is put behind [Atlas], and nothing behind the
    match is matched again. *)
Lemma re_subn_here ds tail :
  ds <> [] -> forallb is_Nd ds = true ->
  UpdateImageUrls.at_dollar tail = true ->
  UpdateImageUrls.re_subn is_Nd (py "Atlas" ++ ds ++ py ".png" ++ tail)
  = (py "Atlas" ++ py "-" ++ ds ++ py ".png" ++ tail, 1%nat).
Proof.
  intros Hne Hds Ht.
  pose proof (match_at_complete ds tail Hne Hds Ht) as Hm.
  unfold UpdateImageUrls.re_subn.
  rewrite (subn_from_match _ _ Hm).
  change (drop 1 (py "Atlas" ++ ds ++ py ".png" ++ tail))
    with (py "tlas" ++ ds ++ py ".png" ++ tail).
  change (drop 5 (py "Atlas" ++ ds ++ py ".png" ++ tail))
    with (ds ++ py ".png" ++ tail).
  replace (5 + length ds + 4 - 1)%nat
    with (length (py "tlas" ++ ds ++ py ".png")).
  2:{ rewrite !length_app. change (length (py "tlas")) with 4%nat.
      change (length (py ".png")) with 4%nat. lia. }
  replace (py "tlas" ++ ds ++ py ".png" ++ tail)
    with ((py "tlas" ++ ds ++ py ".png") ++ tail)
    by (by rewrite <- !app_assoc).
  rewrite subn_from_skip.
  pose proof (re_subn_tail tail Ht) as Hz.
  unfold UpdateImageUrls.re_subn in Hz.
  rewrite Hz. by rewrite take_app_length.
Qed.

(** Where the pattern does not match, the character is kept. *)
Lemma re_subn_skip c r :
  UpdateImageUrls.match_at is_Nd (c :: r) = None ->
  UpdateImageUrls.re_subn is_Nd (c :: r)
  = (c :: fst (UpdateImageUrls.re_subn is_Nd r),
     snd (UpdateImageUrls.re_subn is_Nd r)).
Proof.
  intros H. unfold UpdateImageUrls.re_subn.
  rewrite subn_from_cons, H. by destruct (UpdateImageUrls.subn_from is_Nd 0 r).
Qed.

(** Two runs of digits that stop at a character which is not a digit, read
    from the same place, are the same run. *)
Lemma digit_runs_meet ds : forall ds' a b rest rest',
  forallb is_Nd ds = true -> forallb is_Nd ds' = true ->
  is_Nd a = false -> is_Nd b = false ->
  ds ++ a :: rest = ds' ++ b :: rest' ->
  ds = ds' /\ a = b /\ rest = rest'.
Proof.
  induction ds as [|d ds IH]; intros [|d' ds'] a b rest rest' H1 H2 Ha Hb E;
    simpl in *.
  - by injection E as -> ->.
  - injection E as -> _. apply andb_true_iff in H2 as [H2 _]. congruence.
  - injection E as -> _. apply andb_true_iff in H1 as [H1 _]. congruence.
  - injection E as -> E.
    apply andb_true_iff in H1 as [_ H1]. apply andb_true_iff in H2 as [_ H2].
    destruct (IH ds' a b rest rest' H1 H2 Ha Hb E) as (-> & -> & ->). done.
Qed.

Lemma digit_suffix_unique X Y a b ds ds' :
  forallb is_Nd ds = true -> forallb is_Nd ds' = true ->
  is_Nd a = false -> is_Nd b = false ->
  X ++ a :: ds = Y ++ b :: ds' ->
  X = Y /\ a = b /\ ds = ds'.
Proof.
  intros H1 H2 Ha Hb E. apply (f_equal reverse) in E.
  rewrite !reverse_app, !reverse_cons, <- !app_assoc in E. simpl in E.
  apply digit_runs_meet in E as (E1 & E2 & E3);
    try (by rewrite forallb_reverse); try done.
  apply (f_equal reverse) in E1, E3.
  rewrite !reverse_involutive in E1, E3. done.
Qed.

(** A string has the shape [... c digits .png] in one way only. *)
Lemma shape_unique X Y a b ds ds' tail tail' :
  forallb is_Nd ds = true -> forallb is_Nd ds' = true ->
  is_Nd a = false -> is_Nd b = false ->
  UpdateImageUrls.at_dollar tail = true ->
  UpdateImageUrls.at_dollar tail' = true ->
  X ++ a :: ds ++ py ".png" ++ tail = Y ++ b :: ds' ++ py ".png" ++ tail' ->
  X = Y /\ a = b /\ ds = ds'.
Proof.
  intros H1 H2 Ha Hb Ht Ht' E.
  assert (Hpng : forall Z c zs t,
            Z ++ c :: zs ++ py ".png" ++ t
            = (Z ++ c :: zs ++ py ".pn") ++ [103] ++ t).
  { intros. rewrite <- !app_assoc. simpl. by rewrite <- !app_assoc. }
  apply at_dollar_inv in Ht as [-> | ->];
    apply at_dollar_inv in Ht' as [-> | ->].
  - rewrite !app_nil_r in E.
    replace (X ++ a :: ds ++ py ".png") with ((X ++ a :: ds) ++ py ".png")
      in E by (by rewrite <- app_assoc).
    replace (Y ++ b :: ds' ++ py ".png") with ((Y ++ b :: ds') ++ py ".png")
      in E by (by rewrite <- app_assoc).
    apply app_inj_2 in E as [E _]; [|done].
    by apply digit_suffix_unique in E.
  - exfalso. rewrite (Hpng X), (Hpng Y) in E.
    rewrite app_nil_r in E.
    replace ((Y ++ b :: ds' ++ py ".pn") ++ [103] ++ [10])
      with (((Y ++ b :: ds' ++ py ".pn") ++ [103]) ++ [10]) in E
      by (by rewrite <- app_assoc).
    apply app_inj_2 in E as [_ E]; [discriminate|done].
  - exfalso. rewrite (Hpng X), (Hpng Y) in E.
    rewrite app_nil_r in E.
    replace ((X ++ a :: ds ++ py ".pn") ++ [103] ++ [10])
      with (((X ++ a :: ds ++ py ".pn") ++ [103]) ++ [10]) in E
      by (by rewrite <- app_assoc).
    apply app_inj_2 in E as [_ E]; [discriminate|done].
  - replace (X ++ a :: ds ++ py ".png" ++ [10])
      with ((X ++ a :: ds) ++ py ".png" ++ [10]) in E
      by (by rewrite <- app_assoc).
    replace (Y ++ b :: ds' ++ py ".png" ++ [10])
      with ((Y ++ b :: ds') ++ py ".png" ++ [10]) in E
      by (by rewrite <- app_assoc).
    apply app_inj_2 in E as [E _]; [|done].
    by apply digit_suffix_unique in E.
Qed.

Lemma not_digit_s : is_Nd 115 = false.
Proof. by rewrite Nd_ascii. Qed.

Lemma not_digit_hyphen : is_Nd 45 = false.
Proof. by rewrite Nd_ascii. Qed.

(** Before the place where the string has the shape of the pattern, the
    pattern does not match. *)
Lemma no_match_before q ds tail :
  q <> [] -> forallb is_Nd ds = true ->
  UpdateImageUrls.at_dollar tail = true ->
  UpdateImageUrls.match_at is_Nd (q ++ py "Atlas" ++ ds ++ py ".png" ++ tail)
  = None.
Proof.
  intros Hq Hds Ht.
  destruct (UpdateImageUrls.match_at is_Nd
              (q ++ py "Atlas" ++ ds ++ py ".png" ++ tail)) as [k|] eqn:E;
    [exfalso|done].
  apply match_at_inv in E as (ds' & tail' & E & _ & _ & Hds' & Ht').
  change (q ++ py "Atlas" ++ ds ++ py ".png" ++ tail)
    with (q ++ py "Atla" ++ 115 :: ds ++ py ".png" ++ tail) in E.
  change (py "Atlas" ++ ds' ++ py ".png" ++ tail')
    with (py "Atla" ++ 115 :: ds' ++ py ".png" ++ tail') in E.
  rewrite app_assoc in E.
  apply shape_unique in E as (E & _); try done; try apply not_digit_s.
  apply (f_equal length) in E. rewrite length_app in E.
  destruct q; [done|simpl in E; lia].
Qed.

(** The general rule of the second step: at the end of a string of the
    shape of the pattern the hyphen is put, and the count is one. *)
Lemma re_subn_shape p ds tail :
  ds <> [] -> forallb is_Nd ds = true ->
  UpdateImageUrls.at_dollar tail = true ->
  UpdateImageUrls.re_subn is_Nd (p ++ py "Atlas" ++ ds ++ py ".png" ++ tail)
  = (p ++ py "Atlas" ++ py "-" ++ ds ++ py ".png" ++ tail, 1%nat).
Proof.
  intros Hne Hds Ht. induction p as [|c p IH].
  - by apply re_subn_here.
  - rewrite <- !app_comm_cons. rewrite re_subn_skip.
    + by rewrite IH.
    + rewrite app_comm_cons. by apply (no_match_before (c :: p)).
Qed.

(** A count that is not zero shows the shape of the string. *)
Lemma re_subn_inv s :
  snd (UpdateImageUrls.re_subn is_Nd s) <> O ->
  exists p ds tail,
    s = p ++ py "Atlas" ++ ds ++ py ".png" ++ tail
    /\ ds <> [] /\ forallb is_Nd ds = true
    /\ UpdateImageUrls.at_dollar tail = true.
Proof.
  induction s as [|c r IH]; [done|].
  destruct (UpdateImageUrls.match_at is_Nd (c :: r)) as [k|] eqn:E.
  - intros _. apply match_at_inv in E as (ds & tail & E & _ & Hne & Hds & Ht).
    by exists [], ds, tail.
  - rewrite re_subn_skip by done. simpl. intros H.
    destruct (IH H) as (p & ds & tail & -> & Hne & Hds & Ht).
    by exists (c :: p), ds, tail.
Qed.

(** A count of zero leaves the string as it is. *)
Lemma re_subn_zero s :
  snd (UpdateImageUrls.re_subn is_Nd s) = O ->
  fst (UpdateImageUrls.re_subn is_Nd s) = s.
Proof.
  induction s as [|c r IH]; [done|].
  destruct (UpdateImageUrls.match_at is_Nd (c :: r)) as [k|] eqn:E.
  - unfold UpdateImageUrls.re_subn.
    rewrite (subn_from_match _ _ E). discriminate.
  - rewrite re_subn_skip by done. simpl. intros H. by rewrite IH.
Qed.

Lemma re_subn_none s :
  (forall i, UpdateImageUrls.match_at is_Nd (drop i s) = None) ->
  UpdateImageUrls.re_subn is_Nd s = (s, O).
Proof.
  induction s as [|c r IH]; intros H; [done|].
  rewrite re_subn_skip by apply (H O).
  rewrite IH; [done|]. intros i. apply (H (S i)).
Qed.

(** Once the hyphen is there the pattern matches nowhere. *)
Lemma hyphenated_no_match p ds tail i :
  forallb is_Nd ds = true ->
  UpdateImageUrls.at_dollar tail = true ->
  UpdateImageUrls.match_at is_Nd
    (drop i (p ++ py "Atlas" ++ py "-" ++ ds ++ py ".png" ++ tail))
  = None.
Proof.
  intros Hds Ht.
  set (r := p ++ py "Atlas" ++ py "-" ++ ds ++ py ".png" ++ tail).
  destruct (UpdateImageUrls.match_at is_Nd (drop i r)) as [k|] eqn:E; [exfalso|done].
  apply match_at_inv in E as (ds' & tail' & E & _ & _ & Hds' & Ht').
  assert (Hr : r = take i r ++ drop i r) by (by rewrite take_drop).
  rewrite E in Hr. unfold r at 1 in Hr.
  change (p ++ py "Atlas" ++ py "-" ++ ds ++ py ".png" ++ tail)
    with (p ++ py "Atlas" ++ 45 :: ds ++ py ".png" ++ tail) in Hr.
  change (py "Atlas" ++ ds' ++ py ".png" ++ tail')
    with (py "Atla" ++ 115 :: ds' ++ py ".png" ++ tail') in Hr.
  rewrite !app_assoc in Hr. rewrite <- !app_assoc in Hr.
  rewrite (app_assoc p), (app_assoc (take i r)) in Hr.
  apply shape_unique in Hr as (_ & Hr & _);
    try done; try apply not_digit_s; try apply not_digit_hyphen.
Qed.

(** An occurrence of a string that has no character of a given kind lies
    on one side of such a character. *)
Lemma occurrence_split (bad : N -> bool) old x c y i :
  forallb (fun a => negb (bad a)) old = true -> bad c = true ->
  startswith old (drop i (x ++ c :: y)) = true ->
  ((i + length old <= length x)%nat /\ startswith old (drop i x) = true)
  \/ ((length x < i)%nat /\ startswith old (drop (i - S (length x)) y) = true).
Proof.
  intros Hold Hc H.
  destruct (decide (i + length old <= length x)%nat) as [Ha|Ha].
  { left. split; [done|]. apply startswith_take. apply startswith_take in H.
    rewrite drop_app_le in H by lia.
    rewrite take_app_le in H by (rewrite length_drop; lia). done. }
  destruct (decide (length x < i)%nat) as [Hb|Hb].
  { right. split; [done|].
    rewrite drop_app_ge in H by lia.
    replace (i - length x)%nat with (S (i - S (length x))) in H by lia.
    done. }
  exfalso. apply startswith_take in H.
  assert (Hl : old !! (length x - i)%nat = Some c).
  { rewrite <- H. rewrite lookup_take_lt by lia. rewrite lookup_drop.
    replace (i + (length x - i))%nat with (length x) by lia.
    by apply list_lookup_middle. }
  pose proof (forallb_lookup _ _ _ _ Hold Hl) as Hn. simpl in Hn.
  by rewrite Hc in Hn.
Qed.

Lemma occurrence_app_l old x z i :
  startswith old (drop i x) = true -> startswith old (drop i (x ++ z)) = true.
Proof.
  intros H. apply startswith_take. apply startswith_take in H.
  assert (Hlen : (length old <= length (drop i x))%nat).
  { rewrite <- H at 1. rewrite length_take. lia. }
  rewrite length_drop in Hlen.
  destruct (decide (i <= length x)%nat).
  - rewrite drop_app_le by lia.
    by rewrite take_app_le by (rewrite length_drop; lia).
  - rewrite drop_ge in H by lia. rewrite take_nil in H. subst old.
    by rewrite take_0.
Qed.

Lemma occurrence_app_r old x z j :
  startswith old (drop j z) = true ->
  startswith old (drop (length x + j) (x ++ z)) = true.
Proof.
  intros H. rewrite drop_app_ge by lia.
  by replace (length x + j - length x)%nat with j by lia.
Qed.

(** The hyphen that is put behind [Atlas] makes no occurrence of the old
    folder name. *)
Lemma hyphen_no_occurrence p ds rest :
  ds <> [] -> forallb is_Nd ds = true ->
  (forall i, startswith UpdateImageUrls.old_folder
               (drop i (p ++ py "Atlas" ++ ds ++ rest)) = false) ->
  forall i, startswith UpdateImageUrls.old_folder
              (drop i (p ++ py "Atlas" ++ py "-" ++ ds ++ rest)) = false.
Proof.
  intros Hne Hds Hv i.
  destruct (startswith UpdateImageUrls.old_folder
              (drop i (p ++ py "Atlas" ++ py "-" ++ ds ++ rest))) eqn:F;
    [exfalso|done].
  set (bad := fun c => is_Nd c || (c =? 65)).
  assert (Hold : forallb (fun a => negb (bad a)) UpdateImageUrls.old_folder
                 = true).
  { assert (Hc : forallb (fun c => (c <? 128) && negb (ascii_digit c)
                                    && negb (c =? 65))
                         UpdateImageUrls.old_folder = true) by reflexivity.
    rewrite forallb_forall in Hc. apply forallb_forall. intros c Hin.
    specialize (Hc c Hin).
    apply andb_true_iff in Hc as [[H1 H2]%andb_true_iff H3].
    apply N.ltb_lt in H1. unfold bad. rewrite (Nd_ascii c H1).
    apply negb_true_iff in H2, H3. by rewrite H2, H3. }
  destruct ds as [|d ds0]; [done|].
  simpl in Hds. apply andb_true_iff in Hds as [Hd Hds0].
  change (p ++ py "Atlas" ++ py "-" ++ (d :: ds0) ++ rest)
    with (p ++ 65 :: (py "tlas-" ++ d :: (ds0 ++ rest))) in F.
  assert (Hb65 : bad 65 = true) by (unfold bad; apply orb_true_r).
  assert (Hbd : bad d = true) by (unfold bad; by rewrite Hd).
  apply (occurrence_split bad _ _ _ _ _ Hold Hb65) in F as [[_ F]|[Hi F]].
  - apply (occurrence_app_l _ _ (py "Atlas" ++ (d :: ds0) ++ rest)) in F.
    by rewrite Hv in F.
  - apply (occurrence_split bad _ _ _ _ _ Hold Hbd) in F as [[F _]|[Hj F]].
    + change (length UpdateImageUrls.old_folder) with 21%nat in F.
      change (length (py "tlas-")) with 5%nat in F. lia.
    + apply (occurrence_app_r _ (p ++ py "Atlas" ++ [d])) in F.
      replace ((p ++ py "Atlas" ++ [d]) ++ ds0 ++ rest)
        with (p ++ py "Atlas" ++ (d :: ds0) ++ rest) in F
        by (by rewrite <- !app_assoc).
      by rewrite Hv in F.
Qed.

End Pattern.

(** *** [update_image_url] *)

Section UrlCalls.

Variable is_Nd : N -> bool.
Variable encodes : N -> bool.

(** What a call of the function on a string does. *)
Lemma update_image_url_eq s st :
  UpdateImageUrls.update_image_url is_Nd encodes (JStr s) st
  = if (pattern_count is_Nd s =? 0)%nat
    then if forallb encodes s
         then (Returned (rewritten is_Nd s),
               Process (json_data st)
                       (stdout st ++ [UpdateImageUrls.pattern_warning s])
                       (files st))
         else (Raised UnicodeEncodeError, st)
    else (Returned (rewritten is_Nd s), st).
Proof.
  unfold UpdateImageUrls.update_image_url, rewritten, pattern_count.
  destruct (UpdateImageUrls.re_subn is_Nd _) as [out n]. cbn [fst snd].
  destruct st as [data o fl].
  destruct (n =? 0)%nat; [|reflexivity].
  unfold bind at 1. unfold print_quoting.
  by destruct (forallb encodes s).
Qed.

(** The pattern does not match a string that has not its shape. *)
Lemma no_shape_no_match v :
  (forall p ds tail,
     ds <> [] -> forallb is_Nd ds = true -> tail = [] \/ tail = [10] ->
     v <> p ++ py "Atlas" ++ ds ++ py ".png" ++ tail) ->
  UpdateImageUrls.re_subn is_Nd v = (v, O).
Proof.
  intros Hno.
  destruct (snd (UpdateImageUrls.re_subn is_Nd v)) as [|n] eqn:Hn.
  - rewrite <- (re_subn_zero is_Nd v Hn) at 2. rewrite <- Hn.
    by destruct (UpdateImageUrls.re_subn is_Nd v).
  - assert (Hn' : snd (UpdateImageUrls.re_subn is_Nd v) <> O) by lia.
    destruct (re_subn_inv is_Nd v Hn') as (p & ds & tail & Hs & Hne & Hds & Ht).
    destruct (Hno p ds tail Hne Hds (at_dollar_inv tail Ht) Hs).
Qed.

Hypothesis Nd_ascii : forall c, c < 128 -> is_Nd c = ascii_digit c.

(** C3: the URL of the example is rewritten to the URL the example gives.
    In general the first step replaces every occurrence of the old folder
    name, from left to right, so that none is left: the first occurrence
    is replaced and then those behind it, and a string without an
    occurrence stays as it is. Then, if the result of the first step ends
    with [Atlas], one or more decimal digits and [.png], the hyphen is put
    between [Atlas] and the digits, and no warning is printed. The first
    step is done whether the second finds its pattern or not: when the
    result of the first step has not the shape of the pattern (nor that
    shape before a final newline) and the warning can be printed, the
    function returns the result of the first step. *)
Theorem update_image_url_rewrite :
  (forall st,
     UpdateImageUrls.update_image_url is_Nd encodes
       (JStr (py "https://harto-atelier.github.io/atlas-offchain-images/images/Atlas0.png"))
       st
     = (Returned (py "https://harto-atelier.github.io/atlas-images-offchain/images/Atlas-0.png"),
        st))
  /\ (forall a b,
        (forall i, (i < length a)%nat ->
           startswith UpdateImageUrls.old_folder
             (drop i (a ++ UpdateImageUrls.old_folder ++ b)) = false) ->
        str_replace UpdateImageUrls.old_folder UpdateImageUrls.new_folder
          (a ++ UpdateImageUrls.old_folder ++ b)
        = a ++ UpdateImageUrls.new_folder
            ++ str_replace UpdateImageUrls.old_folder
                           UpdateImageUrls.new_folder b)
  /\ (forall s,
        (forall i, startswith UpdateImageUrls.old_folder (drop i s) = false) ->
        str_replace UpdateImageUrls.old_folder UpdateImageUrls.new_folder s = s)
  /\ (forall s i,
        startswith UpdateImageUrls.old_folder
          (drop i (str_replace UpdateImageUrls.old_folder
                               UpdateImageUrls.new_folder s)) = false)
  /\ (forall url p ds st,
        ds <> [] -> forallb is_Nd ds = true ->
        str_replace UpdateImageUrls.old_folder UpdateImageUrls.new_folder url
        = p ++ py "Atlas" ++ ds ++ py ".png" ->
        UpdateImageUrls.update_image_url is_Nd encodes (JStr url) st
        = (Returned (p ++ py "Atlas" ++ py "-" ++ ds ++ py ".png"), st))
  /\ (forall url st,
        (forall p ds tail,
           ds <> [] -> forallb is_Nd ds = true -> tail = [] \/ tail = [10] ->
           str_replace UpdateImageUrls.old_folder UpdateImageUrls.new_folder
             url
           <> p ++ py "Atlas" ++ ds ++ py ".png" ++ tail) ->
        forallb encodes url = true ->
        UpdateImageUrls.update_image_url is_Nd encodes (JStr url) st
        = (Returned (str_replace UpdateImageUrls.old_folder
                                 UpdateImageUrls.new_folder url),
           Process (json_data st)
             (stdout st
              ++ [py "Warning: URL '" ++ url
                  ++ py "' does not match the expected pattern for filename modification."])
             (files st))).
Proof.
  assert (General : forall url p ds st,
            ds <> [] -> forallb is_Nd ds = true ->
            str_replace UpdateImageUrls.old_folder UpdateImageUrls.new_folder url
            = p ++ py "Atlas" ++ ds ++ py ".png" ->
            UpdateImageUrls.update_image_url is_Nd encodes (JStr url) st
            = (Returned (p ++ py "Atlas" ++ py "-" ++ ds ++ py ".png"), st)).
  { intros url p ds st Hne Hds Hv.
    rewrite update_image_url_eq. unfold pattern_count, rewritten. rewrite Hv.
    pose proof (re_subn_shape is_Nd Nd_ascii p ds [] Hne Hds eq_refl) as Hr.
    rewrite !app_nil_r in Hr. by rewrite Hr. }
  split; [|split; [|split; [|split; [|split]]]].
  - intros st.
    apply (General _ (py "https://harto-atelier.github.io/atlas-images-offchain/images/")
                   [48]); [done| |reflexivity].
    simpl. by rewrite Nd_ascii.
  - intros a b. by apply str_replace_first.
  - apply str_replace_absent.
  - apply old_folder_gone.
  - exact General.
  - intros url st Hno Henc.
    rewrite update_image_url_eq. unfold pattern_count, rewritten.
    rewrite (no_shape_no_match _ Hno). cbn [fst snd].
    by rewrite Henc.
Qed.

(** C4, amended: when the pattern matched in the rewrite of a URL, neither
    step of the rewrite changes the result: its first step finds no old
    folder name in it, and its second step no match. A second call on the
    result prints the warning of the pattern, which quotes the result; it
    returns the result when stdout can encode it, and ends on
    [UnicodeEncodeError] when it cannot. *)
Theorem update_image_url_idempotent (url : str) (st : process) :
  snd (UpdateImageUrls.re_subn is_Nd
         (str_replace UpdateImageUrls.old_folder UpdateImageUrls.new_folder url))
  <> O ->
  exists r,
    UpdateImageUrls.update_image_url is_Nd encodes (JStr url) st
    = (Returned r, st)
    /\ str_replace UpdateImageUrls.old_folder UpdateImageUrls.new_folder r = r
    /\ UpdateImageUrls.re_subn is_Nd r = (r, O)
    /\ (forallb encodes r = true ->
        exists st2,
          UpdateImageUrls.update_image_url is_Nd encodes (JStr r) st
          = (Returned r, st2))
    /\ (forallb encodes r = false ->
        UpdateImageUrls.update_image_url is_Nd encodes (JStr r) st
        = (Raised UnicodeEncodeError, st)).
Proof.
  intros Hn.
  destruct (re_subn_inv is_Nd _ Hn) as (p & ds & tail & Hv & Hne & Hds & Ht).
  set (r := p ++ py "Atlas" ++ py "-" ++ ds ++ py ".png" ++ tail).
  assert (H1 : str_replace UpdateImageUrls.old_folder
                 UpdateImageUrls.new_folder r = r).
  { apply str_replace_absent.
    apply (hyphen_no_occurrence is_Nd Nd_ascii); [done|done|].
    intros i. rewrite <- Hv. apply old_folder_gone. }
  assert (H2 : UpdateImageUrls.re_subn is_Nd r = (r, O)).
  { apply re_subn_none. intros i.
    by apply (hyphenated_no_match is_Nd Nd_ascii). }
  exists r. split.
  { rewrite update_image_url_eq. unfold pattern_count, rewritten.
    destruct (snd (UpdateImageUrls.re_subn is_Nd _)) as [|n] eqn:E; [done|].
    cbn [Nat.eqb]. by rewrite Hv, (re_subn_shape is_Nd Nd_ascii). }
  split; [exact H1|]. split; [exact H2|].
  split.
  - intros Henc. eexists. rewrite update_image_url_eq.
    unfold pattern_count, rewritten. rewrite H1, H2. cbn [fst snd Nat.eqb].
    by rewrite Henc.
  - intros Henc. rewrite update_image_url_eq.
    unfold pattern_count. rewrite H1, H2. cbn [snd Nat.eqb].
    by rewrite Henc.
Qed.

End UrlCalls.

Lemma update_image_url_rewrite_witness :
  UpdateImageUrls.update_image_url ascii_digit utf8_encodes
    (JStr (py "https://harto-atelier.github.io/atlas-offchain-images/images/Atlas0.png"))
    (Process [] [] [])
  = (Returned (py "https://harto-atelier.github.io/atlas-images-offchain/images/Atlas-0.png"),
     Process [] [] [])
  /\ UpdateImageUrls.update_image_url ascii_digit utf8_encodes
       (JStr (py "atlas-offchain-images/atlas-offchain-images/Atlas042.png"))
       (Process [] [] [])
     = (Returned (py "atlas-images-offchain/atlas-images-offchain/Atlas-042.png"),
        Process [] [] [])
  /\ UpdateImageUrls.update_image_url ascii_digit utf8_encodes
       (JStr (py "atlas-offchain-images/cover.png")) (Process [] [] [])
     = (Returned (py "atlas-images-offchain/cover.png"),
        Process []
          [py "Warning: URL 'atlas-offchain-images/cover.png' does not match the expected pattern for filename modification."]
          []).
Proof.
  destruct (update_image_url_rewrite ascii_digit utf8_encodes
              (fun c _ => eq_refl))
    as (Hex & _ & _ & _ & Hgen & Hno).
  split; [apply Hex|]. split.
  - apply (Hgen _ (py "atlas-images-offchain/atlas-images-offchain/")
                (py "042")); [discriminate|reflexivity|reflexivity].
  - apply (Hno (py "atlas-offchain-images/cover.png") (Process [] [] []));
      [|reflexivity].
    intros p ds tail Hne Hds Ht Heq.
    assert (Hr : snd (UpdateImageUrls.re_subn ascii_digit
                        (p ++ py "Atlas" ++ ds ++ py ".png" ++ tail))
                 = 1%nat).
    { rewrite (re_subn_shape ascii_digit (fun c _ => eq_refl));
        [reflexivity|done|done|]. by destruct Ht as [-> | ->]. }
    rewrite <- Heq in Hr. vm_compute in Hr. discriminate Hr.
Defined.

(** C4, as the claim states it, fails: the pattern matches in the rewrite
    of a URL that begins with a lone surrogate, and the second rewrite, on
    a stdout in UTF-8, ends on [UnicodeEncodeError] at its warning and
    yields no string. *)
Lemma update_image_url_second_call_counterexample :
  snd (UpdateImageUrls.re_subn ascii_digit
         (str_replace UpdateImageUrls.old_folder UpdateImageUrls.new_folder
            ([55296] ++ py "Atlas0.png")))
  <> O
  /\ UpdateImageUrls.update_image_url ascii_digit utf8_encodes
       (JStr ([55296] ++ py "Atlas0.png")) (Process [] [] [])
     = (Returned ([55296] ++ py "Atlas-0.png"), Process [] [] [])
  /\ UpdateImageUrls.update_image_url ascii_digit utf8_encodes
       (JStr ([55296] ++ py "Atlas-0.png")) (Process [] [] [])
     = (Raised UnicodeEncodeError, Process [] [] []).
Proof. split; [vm_compute; discriminate|]. split; reflexivity. Qed.

Lemma update_image_url_idempotent_witness :
  exists r,
    UpdateImageUrls.update_image_url ascii_digit utf8_encodes
      (JStr (py "https://harto-atelier.github.io/atlas-offchain-images/images/Atlas0.png"))
      (Process [] [] [])
    = (Returned r, Process [] [] [])
    /\ str_replace UpdateImageUrls.old_folder UpdateImageUrls.new_folder r = r
    /\ UpdateImageUrls.re_subn ascii_digit r = (r, O).
Proof.
  destruct (update_image_url_idempotent ascii_digit utf8_encodes
              (fun c _ => eq_refl)
              (py "https://harto-atelier.github.io/atlas-offchain-images/images/Atlas0.png")
              (Process [] [] []))
    as (r & H1 & H2 & H3 & _).
  - vm_compute. discriminate.
  - by exists r.
Defined.

(** [$] also matches before a newline that ends the string. *)
Example dollar_before_final_newline :
  UpdateImageUrls.re_subn ascii_digit (py "Atlas0.png" ++ [10])
  = (py "Atlas-0.png" ++ [10], 1%nat).
Proof. reflexivity. Qed.

(** Outside the data model the loops end on an uncaught exception: a
    [meta] that is not an object, an [image] that is a number. *)
Example meta_null_raises :
  fst (run (UpdateImageUrls.replace_image_urls ascii_digit utf8_encodes)
           [JDict [(py "meta", JNull)]])
  = Raised AttributeError.
Proof. reflexivity. Qed.

Example image_number_raises :
  fst (run (UpdateImageUrls.replace_image_urls ascii_digit utf8_encodes)
           [JDict [(py "meta", JDict [(py "image", JInt 5)])]])
  = Raised AttributeError.
Proof. reflexivity. Qed.

(** The concrete case of the spec: the record with [id] 5 and an empty
    [meta] is unchanged, warned about and not counted. *)
Example empty_meta_record :
  run (UpdateImageUrls.replace_image_urls ascii_digit utf8_encodes)
      [JDict [(py "id", JInt 5); (py "meta", JDict [])]]
  = (Returned ([JDict [(py "id", JInt 5); (py "meta", JDict [])]], O),
     Process [JDict [(py "id", JInt 5); (py "meta", JDict [])]]
             [py "Warning: Entry #1 does not have an 'image' field."] []).
Proof. reflexivity. Qed.

(** ** The URL tool *)

Section UrlLoop.

Variable is_Nd : N -> bool.
Variable encodes : N -> bool.



Lemma for_fold_cons {A S} (body : A -> S -> M S) x r acc :
  for_fold body (x :: r) acc
  = (let* acc' := body x acc in for_fold body r acc').
Proof. reflexivity. Qed.

(** One turn of the loop of [replace_image_urls] on a record of the data
    model. *)
Lemma rewrite_entry_step pre e rest count out fl :
  url_record_ok e = true ->
  warning_prints is_Nd encodes e = true ->
  UpdateImageUrls.rewrite_entry is_Nd encodes (S (length pre)) count
    (Process (pre ++ e :: rest) out fl)
  = (Returned (count + (if url_changes is_Nd e then 1 else 0))%nat,
     Process (pre ++ with_new_image is_Nd e :: rest)
             (out ++ url_warning is_Nd (S (length pre)) e) fl).
Proof.
  intros Hok Hwp. destruct e as [| | | | | |d]; try discriminate Hok.
  unfold UpdateImageUrls.rewrite_entry.
  replace (S (length pre) - 1)%nat with (length pre) by lia.
  unfold bind at 1. unfold deref at 1. simpl json_data.
  rewrite lookup_at_length.
  unfold with_new_image, url_warning, url_changes, image_url_of.
  unfold url_record_ok in Hok.
  unfold bind at 1. unfold get_method at 1.
  destruct (dict_get (py "meta") d) as [meta|] eqn:Hmeta.
  2:{ unfold ret at 1. unfold bind at 1. unfold get_method at 1.
      rewrite Nat.add_0_r. reflexivity. }
  destruct meta as [| | | | | |m]; try discriminate Hok.
  unfold ret at 1. unfold bind at 1. unfold get_method at 1.
  destruct (dict_get (py "image") m) as [image|] eqn:Himg.
  2:{ rewrite Nat.add_0_r. reflexivity. }
  unfold ret at 1.
  destruct (is_str image) eqn:Hstr.
  2:{ assert (Ht : truthy image = false)
        by (simpl in Hok; by apply negb_true_iff in Hok).
      rewrite Ht.
      destruct image; try discriminate Hstr;
        cbv iota; rewrite Nat.add_0_r; reflexivity. }
  destruct image as [| | | |s| |]; try discriminate Hstr.
  destruct s as [|c s].
  { rewrite Nat.add_0_r. reflexivity. }
  unfold warning_prints, image_url_of in Hwp. rewrite Hmeta, Himg in Hwp.
  change (truthy (JStr (c :: s))) with true. cbv iota.
  unfold bind at 1. rewrite update_image_url_eq.
  assert (Hcall :
    (if (pattern_count is_Nd (c :: s) =? 0)%nat
     then if forallb encodes (c :: s)
          then (Returned (rewritten is_Nd (c :: s)),
                Process (json_data (Process (pre ++ JDict d :: rest) out fl))
                  (stdout (Process (pre ++ JDict d :: rest) out fl)
                   ++ [UpdateImageUrls.pattern_warning (c :: s)])
                  (files (Process (pre ++ JDict d :: rest) out fl)))
          else (Raised UnicodeEncodeError,
                Process (pre ++ JDict d :: rest) out fl)
     else (Returned (rewritten is_Nd (c :: s)),
           Process (pre ++ JDict d :: rest) out fl))
    = (Returned (rewritten is_Nd (c :: s)),
       Process (pre ++ JDict d :: rest)
         (out ++ (if (pattern_count is_Nd (c :: s) =? 0)%nat
                  then [UpdateImageUrls.pattern_warning (c :: s)] else []))
         fl)).
  { destruct (pattern_count is_Nd (c :: s) =? 0)%nat eqn:E.
    - rewrite ?E in Hwp. cbn [negb orb] in Hwp. by rewrite Hwp.
    - by rewrite app_nil_r. }
  rewrite Hcall. clear Hcall.
  change (str_eqb (c :: s) []) with false. simpl negb at 3. cbv iota.
  unfold UpdateImageUrls.differs.
  rewrite andb_true_l.
  destruct (negb (str_eqb (rewritten is_Nd (c :: s)) (c :: s))) eqn:Hdiff.
  - unfold bind at 1. unfold deref at 1. simpl json_data.
    rewrite lookup_at_length.
    unfold bind at 1. unfold getitem at 1. rewrite Hmeta.
    unfold ret at 1. unfold bind at 1. unfold setitem at 1.
    unfold ret at 1. unfold bind at 1. unfold setitem at 1.
    unfold ret at 1. unfold bind at 1. unfold store at 1.
    simpl json_data. rewrite insert_at_length. reflexivity.
  - unfold ret. rewrite Nat.add_0_r. reflexivity.
Qed.

(** The whole loop, started at the record after [pre]. *)
Lemma rewrite_entry_loop rest : forall pre count out fl,
  forallb (entry_runs is_Nd encodes) rest = true ->
  for_fold (UpdateImageUrls.rewrite_entry is_Nd encodes)
           (seq (S (length pre)) (length rest)) count
           (Process (pre ++ rest) out fl)
  = (Returned (count + length (List.filter (url_changes is_Nd) rest))%nat,
     Process (pre ++ map (with_new_image is_Nd) rest)
             (out ++ url_warnings is_Nd (S (length pre)) rest) fl).
Proof.
  induction rest as [|e rest IH]; intros pre count out fl Hok.
  - simpl. by rewrite Nat.add_0_r, !app_nil_r.
  - simpl in Hok. apply andb_true_iff in Hok as [He Hok].
    unfold entry_runs in He. apply andb_true_iff in He as [He Hwp].
    change (seq (S (length pre)) (length (e :: rest)))
      with (S (length pre) :: seq (S (S (length pre))) (length rest)).
    rewrite for_fold_cons. unfold bind at 1.
    rewrite rewrite_entry_step by done.
    specialize (IH (pre ++ [with_new_image is_Nd e])).
    rewrite length_app in IH. simpl length in IH.
    replace (length pre + 1)%nat with (S (length pre)) in IH by lia.
    rewrite <- !app_assoc in IH.
    change ([with_new_image is_Nd e] ++ rest)
      with (with_new_image is_Nd e :: rest) in IH.
    rewrite IH by done.
    change ([with_new_image is_Nd e] ++ map (with_new_image is_Nd) rest)
      with (map (with_new_image is_Nd) (e :: rest)).
    change (url_warnings is_Nd (S (length pre)) (e :: rest))
      with (url_warning is_Nd (S (length pre)) e
            ++ url_warnings is_Nd (S (S (length pre))) rest).
    rewrite <- app_assoc. do 2 f_equal.
    simpl List.filter. destruct (url_changes is_Nd e); simpl; lia.
Qed.

(** On records of the data model the function returns the list, each
    record rewritten by [with_new_image], and the number of records whose
    URL the rewrite changes. *)
Lemma replace_image_urls_returns st :
  forallb (entry_runs is_Nd encodes) (json_data st) = true ->
  UpdateImageUrls.replace_image_urls is_Nd encodes st
  = (Returned (map (with_new_image is_Nd) (json_data st),
               length (List.filter (url_changes is_Nd) (json_data st))),
     Process (map (with_new_image is_Nd) (json_data st))
             (stdout st ++ url_warnings is_Nd 1 (json_data st)) (files st)).
Proof.
  intros Hok. destruct st as [data out fl]. simpl in *.
  unfold UpdateImageUrls.replace_image_urls.
  unfold bind at 1. unfold len_json_data at 1. simpl json_data.
  unfold bind at 1.
  pose proof (rewrite_entry_loop data [] O out fl Hok) as L.
  simpl app in L. simpl length in L. rewrite L. reflexivity.
Qed.

Lemma url_changes_false e :
  url_changes is_Nd e = false -> with_new_image is_Nd e = e.
Proof.
  unfold with_new_image. intros ->.
  destruct e as [| | | | | |d]; try done.
  destruct (dict_get (py "meta") d) as [[| | | | | |m]|]; try done.
  by destruct (dict_get (py "image") m) as [[| | | |s| |]|].
Qed.

Lemma url_changes_true e s :
  url_changes is_Nd e = true -> image_url_of e = Some s ->
  image_url_of (with_new_image is_Nd e) = Some (rewritten is_Nd s)
  /\ rewritten is_Nd s <> s /\ s <> [].
Proof.
  unfold with_new_image. intros Hc Hs. rewrite Hc.
  unfold url_changes in Hc. rewrite Hs in Hc.
  apply andb_true_iff in Hc as [H1 H2].
  apply negb_true_iff in H1, H2.
  split; [|split].
  - unfold image_url_of in Hs |- *.
    destruct e as [| | | | | |d]; try done.
    destruct (dict_get (py "meta") d) as [[| | | | | |m]|]; try done.
    destruct (dict_get (py "image") m) as [[| | | |s0| |]|]; try done.
    injection Hs as ->. by rewrite !dict_get_set_eq.
  - intros H. apply str_eqb_eq in H. congruence.
  - intros H. apply str_eqb_eq in H. congruence.
Qed.







End UrlLoop.





(** ** Further properties of the ID tool *)

(** The loop up to a record that is not an object: the records before it
    are rewritten, and the call of [get] on it raises. *)
Lemma replace_id_loop_raises mid : forall pre e rest new_ids out fl,
  (length mid < length new_ids)%nat ->
  forallb is_dict mid = true ->
  is_dict e = false ->
  for_each ReplaceIds.replace_id (enumerate (S (length pre)) new_ids)
           (Process (pre ++ mid ++ e :: rest) out fl)
  = (Raised AttributeError,
     Process (pre ++ zip_with with_new_id mid new_ids ++ e :: rest)
             (out ++ id_warnings (S (length pre)) mid) fl).
Proof.
  induction mid as [|x mid IH]; intros pre e rest new_ids out fl Hlen Hd He;
    destruct new_ids as [|new_id new_ids]; try (simpl in Hlen; lia).
  - change (enumerate (S (length pre)) (new_id :: new_ids))
      with ((S (length pre), new_id)
            :: enumerate (S (S (length pre))) new_ids).
    rewrite for_each_cons. unfold bind at 1.
    unfold ReplaceIds.replace_id.
    replace (S (length pre) - 1)%nat with (length pre) by lia.
    unfold bind at 1. unfold deref at 1. simpl json_data.
    change ([] ++ e :: rest) with (e :: rest).
    rewrite lookup_at_length.
    unfold bind at 1.
    destruct e; try discriminate He; simpl; by rewrite app_nil_r.
  - simpl in Hd. apply andb_true_iff in Hd as [Hx Hd].
    change (enumerate (S (length pre)) (new_id :: new_ids))
      with ((S (length pre), new_id)
            :: enumerate (S (S (length pre))) new_ids).
    rewrite for_each_cons. unfold bind at 1.
    change ((x :: mid) ++ e :: rest) with (x :: (mid ++ e :: rest)).
    rewrite replace_id_step by done.
    specialize (IH (pre ++ [with_new_id x new_id]) e rest new_ids).
    rewrite length_app in IH. simpl length in IH.
    replace (length pre + 1)%nat with (S (length pre)) in IH by lia.
    rewrite <- !app_assoc in IH.
    change ([with_new_id x new_id] ++ mid ++ e :: rest)
      with (with_new_id x new_id :: mid ++ e :: rest) in IH.
    rewrite IH by (simpl in Hlen; (lia || done)).
    rewrite <- app_assoc. simpl id_warnings.
    by destruct (id_of x).
Qed.

Lemma forallb_first_false {A} (p : A -> bool) (l : list A) :
  forallb p l = false ->
  exists pre e rest,
    l = pre ++ e :: rest /\ forallb p pre = true /\ p e = false.
Proof.
  induction l as [|x l IH]; [discriminate|]. simpl.
  destruct (p x) eqn:E.
  - intros H. destruct (IH H) as (pre & e & rest & -> & Hp & He).
    exists (x :: pre), e, rest. simpl. by rewrite E.
  - intros _. by exists [], x, l.
Qed.

(** With lengths equal, the run on a list with a record that is not an
    object. *)
Lemma replace_ids_in_json_raises (st : process) (new_ids : list str) :
  length (json_data st) = length new_ids ->
  forallb is_dict (json_data st) = false ->
  exists pre e rest,
    json_data st = pre ++ e :: rest
    /\ forallb is_dict pre = true /\ is_dict e = false
    /\ ReplaceIds.replace_ids_in_json new_ids st
       = (Raised AttributeError,
          Process (zip_with with_new_id pre new_ids ++ e :: rest)
                  (stdout st ++ id_warnings 1 pre) (files st)).
Proof.
  intros Hlen Hd.
  destruct (forallb_first_false _ _ Hd) as (pre & e & rest & Hdata & Hp & He).
  exists pre, e, rest. repeat split; try done.
  destruct st as [data out fl]. simpl in *. subst data.
  unfold ReplaceIds.replace_ids_in_json, bind, len_json_data. simpl.
  rewrite Hlen, Nat.eqb_refl. simpl.
  rewrite firstn_all.
  pose proof (replace_id_loop_raises pre [] e rest new_ids out fl) as L.
  simpl app in L. simpl length in L. rewrite L; [done| |done|done].
  rewrite <- Hlen, length_app. simpl. lia.
Qed.

(** X1: with lengths equal, a list with a record that is not an object makes
    [replace_ids_in_json] end on an uncaught [AttributeError] at the first
    such record: the records before it are rewritten and have their
    warnings, that record and those behind it are untouched. *)
Theorem replace_ids_first_non_object (st : process) (new_ids : list str) :
  length (json_data st) = length new_ids ->
  forallb is_dict (json_data st) = false ->
  exists pre e rest,
    json_data st = pre ++ e :: rest
    /\ forallb is_dict pre = true /\ is_dict e = false
    /\ ReplaceIds.replace_ids_in_json new_ids st
       = (Raised AttributeError,
          Process (zip_with with_new_id pre new_ids ++ e :: rest)
                  (stdout st ++ id_warnings 1 pre) (files st)).
Proof. apply replace_ids_in_json_raises. Qed.

Lemma replace_ids_first_non_object_witness :
  exists pre e rest,
    [JDict [(py "id", JInt 1)]; JStr (py "x"); JDict [(py "id", JInt 3)]]
    = pre ++ e :: rest
    /\ forallb is_dict pre = true /\ is_dict e = false
    /\ ReplaceIds.replace_ids_in_json [py "a"; py "b"; py "c"]
         (Process [JDict [(py "id", JInt 1)]; JStr (py "x");
                   JDict [(py "id", JInt 3)]] [] [])
       = (Raised AttributeError,
          Process (zip_with with_new_id pre [py "a"; py "b"; py "c"]
                   ++ e :: rest)
                  ([] ++ id_warnings 1 pre) []).
Proof.
  exact (replace_ids_first_non_object
           (Process [JDict [(py "id", JInt 1)]; JStr (py "x");
                     JDict [(py "id", JInt 3)]] [] [])
           [py "a"; py "b"; py "c"] eq_refl eq_refl).
Defined.

Lemma dict_set_set k v1 v2 d :
  dict_set k v2 (dict_set k v1 d) = dict_set k v2 d.
Proof.
  induction d as [|[k0 v0] r IH]; simpl.
  - by rewrite str_eqb_refl.
  - destruct (str_eqb k k0) eqn:E; simpl; rewrite E; [done|by rewrite IH].
Qed.

Lemma with_new_id_twice e a b :
  with_new_id (with_new_id e a) b = with_new_id e b.
Proof.
  destruct e as [| | | | | |d]; try reflexivity.
  unfold with_new_id, id_of.
  destruct (dict_get (py "id") d) as [v|] eqn:Hid.
  - destruct v; rewrite ?Hid; try reflexivity;
      by rewrite dict_get_set_eq, dict_set_set.
  - by rewrite Hid.
Qed.

Lemma is_dict_with_new_id e a : is_dict (with_new_id e a) = is_dict e.
Proof.
  destruct e as [| | | | | |d]; try reflexivity.
  unfold with_new_id. by destruct (id_of (JDict d)).
Qed.

Lemma zip_with_new_id_twice data : forall a b,
  length data = length a ->
  zip_with with_new_id (zip_with with_new_id data a) b
  = zip_with with_new_id data b.
Proof.
  induction data as [|e data IH]; intros [|x a] [|y b] Hlen;
    try discriminate; try reflexivity.
  simpl. rewrite with_new_id_twice. f_equal. apply IH.
  simpl in Hlen. lia.
Qed.

Lemma forallb_is_dict_zip data : forall a,
  length data = length a ->
  forallb is_dict data = true ->
  forallb is_dict (zip_with with_new_id data a) = true.
Proof.
  induction data as [|e data IH]; intros [|x a] Hlen Hd;
    try discriminate; try reflexivity.
  simpl in *. apply andb_true_iff in Hd as [He Hd].
  rewrite is_dict_with_new_id, He. apply IH; [lia|done].
Qed.

(** X2: the last run wins. After a run of [replace_ids_in_json] with one
    IdList, a run with a second IdList of the same length leaves the list
    that a run with the second IdList alone leaves; so a run with the same
    IdList again changes nothing. *)
Theorem replace_ids_last_wins (st : process) (a b : list str) :
  length (json_data st) = length a ->
  length (json_data st) = length b ->
  forallb is_dict (json_data st) = true ->
  exists st1 st2 st',
    ReplaceIds.replace_ids_in_json a st = (Returned (json_data st1), st1)
    /\ ReplaceIds.replace_ids_in_json b st1 = (Returned (json_data st2), st2)
    /\ ReplaceIds.replace_ids_in_json b st = (Returned (json_data st'), st')
    /\ json_data st2 = json_data st'
    /\ (a = b -> json_data st2 = json_data st1).
Proof.
  intros Ha Hb Hd.
  pose proof (replace_ids_in_json_returns st a Ha Hd) as H1.
  pose proof (replace_ids_in_json_returns st b Hb Hd) as H3.
  set (st1 := Process (zip_with with_new_id (json_data st) a)
                      (stdout st ++ id_warnings 1 (json_data st)) (files st))
    in *.
  assert (Hl1 : length (json_data st1) = length b).
  { simpl. rewrite length_zip_with; lia. }
  assert (Hd1 : forallb is_dict (json_data st1) = true)
    by (by apply forallb_is_dict_zip).
  pose proof (replace_ids_in_json_returns st1 b Hl1 Hd1) as H2.
  exists st1,
    (Process (zip_with with_new_id (json_data st1) b)
             (stdout st1 ++ id_warnings 1 (json_data st1)) (files st1)),
    (Process (zip_with with_new_id (json_data st) b)
             (stdout st ++ id_warnings 1 (json_data st)) (files st)).
  split; [exact H1|]. split; [exact H2|]. split; [exact H3|].
  simpl. split.
  - by apply zip_with_new_id_twice.
  - intros ->. by apply zip_with_new_id_twice.
Qed.

Lemma replace_ids_last_wins_witness :
  exists st1 st2 st',
    ReplaceIds.replace_ids_in_json [py "a"; py "b"]
      (Process [JDict [(py "id", JInt 1)]; JDict []] [] [])
    = (Returned (json_data st1), st1)
    /\ ReplaceIds.replace_ids_in_json [py "c"; py "d"] st1
       = (Returned (json_data st2), st2)
    /\ ReplaceIds.replace_ids_in_json [py "c"; py "d"]
         (Process [JDict [(py "id", JInt 1)]; JDict []] [] [])
       = (Returned (json_data st'), st')
    /\ json_data st2 = json_data st'.
Proof.
  destruct (replace_ids_last_wins
              (Process [JDict [(py "id", JInt 1)]; JDict []] [] [])
              [py "a"; py "b"] [py "c"; py "d"] eq_refl eq_refl eq_refl)
    as (st1 & st2 & st' & H1 & H2 & H3 & H4 & _).
  by exists st1, st2, st'.
Defined.









(** ** Further properties of the URL tool *)

Section UrlRuns.

Variable is_Nd : N -> bool.
Variable encodes : N -> bool.

(** One turn of the loop on a record outside the data model: a call of
    [get] or of [replace] on a value that has no such method. *)
Lemma rewrite_entry_raises pre e rest count out fl :
  url_record_ok e = false ->
  UpdateImageUrls.rewrite_entry is_Nd encodes (S (length pre)) count
    (Process (pre ++ e :: rest) out fl)
  = (Raised AttributeError, Process (pre ++ e :: rest) out fl).
Proof.
  intros Hok. unfold UpdateImageUrls.rewrite_entry.
  replace (S (length pre) - 1)%nat with (length pre) by lia.
  unfold bind at 1. unfold deref at 1. simpl json_data.
  rewrite lookup_at_length.
  destruct e as [| | | | | |d]; try reflexivity.
  unfold url_record_ok in Hok.
  unfold bind at 1. unfold get_method at 1.
  destruct (dict_get (py "meta") d) as [meta|] eqn:Hmeta; [|discriminate].
  unfold ret at 1.
  destruct meta as [| | | | | |m]; try reflexivity.
  unfold bind at 1. unfold get_method at 1.
  destruct (dict_get (py "image") m) as [image|] eqn:Himg; [|discriminate].
  unfold ret at 1.
  apply orb_false_iff in Hok as [Hs Ht]. apply negb_false_iff in Ht.
  rewrite Ht. destruct image; try discriminate Hs; reflexivity.
Qed.

(** A record of the data model whose warning cannot be printed: a URL, not
    empty, in which the pattern finds no match and which stdout cannot
    encode. *)
Lemma warning_prints_false e :
  warning_prints is_Nd encodes e = false ->
  exists s,
    image_url_of e = Some s /\ s <> []
    /\ pattern_count is_Nd s = O /\ forallb encodes s = false.
Proof.
  unfold warning_prints.
  destruct (image_url_of e) as [[|c s]|]; try discriminate.
  intros H. apply orb_false_iff in H as [Hc He].
  apply negb_false_iff, Nat.eqb_eq in Hc.
  by exists (c :: s).
Qed.

(** One turn of the loop on such a record: [print] raises in
    [update_image_url], and the record is as it was. *)
Lemma rewrite_entry_unprintable pre e rest count out fl :
  warning_prints is_Nd encodes e = false ->
  UpdateImageUrls.rewrite_entry is_Nd encodes (S (length pre)) count
    (Process (pre ++ e :: rest) out fl)
  = (Raised UnicodeEncodeError, Process (pre ++ e :: rest) out fl).
Proof.
  intros Hwp.
  destruct (warning_prints_false e Hwp) as (s & Hs & Hne & Hc & He).
  destruct e as [| | | | | |d]; try discriminate Hs.
  unfold image_url_of in Hs.
  destruct (dict_get (py "meta") d) as [[| | | | | |m]|] eqn:Hmeta;
    try discriminate Hs.
  destruct (dict_get (py "image") m) as [[| | | |s0| |]|] eqn:Himg;
    try discriminate Hs.
  injection Hs as ->. destruct s as [|c s]; [done|].
  unfold UpdateImageUrls.rewrite_entry.
  replace (S (length pre) - 1)%nat with (length pre) by lia.
  unfold bind at 1. unfold deref at 1. simpl json_data.
  rewrite lookup_at_length.
  unfold bind at 1. unfold get_method at 1. rewrite Hmeta. unfold ret at 1.
  unfold bind at 1. unfold get_method at 1. rewrite Himg. unfold ret at 1.
  change (truthy (JStr (c :: s))) with true. cbv iota.
  unfold bind at 1. rewrite update_image_url_eq.
  rewrite Hc, He. reflexivity.
Qed.

(** One turn of the loop on a record that does not run. *)
Lemma rewrite_entry_stops pre e rest count out fl :
  entry_runs is_Nd encodes e = false ->
  UpdateImageUrls.rewrite_entry is_Nd encodes (S (length pre)) count
    (Process (pre ++ e :: rest) out fl)
  = (Raised (if url_record_ok e then UnicodeEncodeError else AttributeError),
     Process (pre ++ e :: rest) out fl).
Proof.
  unfold entry_runs. destruct (url_record_ok e) eqn:Hok.
  - rewrite andb_true_l. apply rewrite_entry_unprintable.
  - intros _. by apply rewrite_entry_raises.
Qed.

Lemma rewrite_entry_loop_raises mid : forall pre e rest count out fl,
  forallb (entry_runs is_Nd encodes) mid = true ->
  entry_runs is_Nd encodes e = false ->
  for_fold (UpdateImageUrls.rewrite_entry is_Nd encodes)
           (seq (S (length pre)) (length (mid ++ e :: rest))) count
           (Process (pre ++ mid ++ e :: rest) out fl)
  = (Raised (if url_record_ok e then UnicodeEncodeError else AttributeError),
     Process (pre ++ map (with_new_image is_Nd) mid ++ e :: rest)
             (out ++ url_warnings is_Nd (S (length pre)) mid) fl).
Proof.
  induction mid as [|x mid IH]; intros pre e rest count out fl Hm He.
  - change (seq (S (length pre)) (length ([] ++ e :: rest)))
      with (S (length pre) :: seq (S (S (length pre))) (length rest)).
    rewrite for_fold_cons. unfold bind at 1.
    change ([] ++ e :: rest) with (e :: rest).
    rewrite rewrite_entry_stops by done.
    simpl. by rewrite app_nil_r.
  - simpl in Hm. apply andb_true_iff in Hm as [Hx Hm].
    unfold entry_runs in Hx. apply andb_true_iff in Hx as [Hx Hxp].
    change (seq (S (length pre)) (length ((x :: mid) ++ e :: rest)))
      with (S (length pre)
            :: seq (S (S (length pre))) (length (mid ++ e :: rest))).
    rewrite for_fold_cons. unfold bind at 1.
    change ((x :: mid) ++ e :: rest) with (x :: (mid ++ e :: rest)).
    rewrite rewrite_entry_step by done.
    specialize (IH (pre ++ [with_new_image is_Nd x]) e rest).
    rewrite length_app in IH. simpl length in IH.
    replace (length pre + 1)%nat with (S (length pre)) in IH by lia.
    rewrite <- !app_assoc in IH.
    change ([with_new_image is_Nd x] ++ mid ++ e :: rest)
      with (with_new_image is_Nd x :: mid ++ e :: rest) in IH.
    rewrite IH by done.
    change (url_warnings is_Nd (S (length pre)) (x :: mid))
      with (url_warning is_Nd (S (length pre)) x
            ++ url_warnings is_Nd (S (S (length pre))) mid).
    by rewrite <- !app_assoc.
Qed.

(** The run on a list with a record that does not run. *)
Lemma replace_image_urls_raises st :
  forallb (entry_runs is_Nd encodes) (json_data st) = false ->
  exists pre e rest,
    json_data st = pre ++ e :: rest
    /\ forallb (entry_runs is_Nd encodes) pre = true
    /\ entry_runs is_Nd encodes e = false
    /\ UpdateImageUrls.replace_image_urls is_Nd encodes st
       = (Raised (if url_record_ok e
                  then UnicodeEncodeError else AttributeError),
          Process (map (with_new_image is_Nd) pre ++ e :: rest)
                  (stdout st ++ url_warnings is_Nd 1 pre) (files st)).
Proof.
  intros Hd.
  destruct (forallb_first_false _ _ Hd) as (pre & e & rest & Hdata & Hp & He).
  exists pre, e, rest. repeat split; try done.
  destruct st as [data out fl]. simpl in *. subst data.
  unfold UpdateImageUrls.replace_image_urls.
  unfold bind at 1. unfold len_json_data at 1. simpl json_data.
  unfold bind at 1.
  pose proof (rewrite_entry_loop_raises pre [] e rest O out fl Hp He) as L.
  simpl app in L. simpl length in L.
  by rewrite L.
Qed.





Hypothesis Nd_ascii : forall c, c < 128 -> is_Nd c = ascii_digit c.

(** A string in which the pattern finds no match has not its shape. *)
Lemma no_match_no_shape v :
  snd (UpdateImageUrls.re_subn is_Nd v) = O ->
  forall p ds tail,
    ds <> [] -> forallb is_Nd ds = true -> tail = [] \/ tail = [10] ->
    v <> p ++ py "Atlas" ++ ds ++ py ".png" ++ tail.
Proof.
  intros Hz p ds tail Hne Hds Ht ->.
  rewrite (re_subn_shape is_Nd Nd_ascii) in Hz; [done|done|done|].
  by destruct Ht as [-> | ->].
Qed.

(** X6: the loop of [replace_image_urls] ends at the first record whose
    turn raises, and such a record is of one of two kinds. A record outside
    the data model (not an object, a [meta] that is not an object, an
    [image] that is neither a string nor false for Python) raises
    [AttributeError]. A record of the data model raises only at the warning
    of the pattern, [UnicodeEncodeError]: its URL is one stdout cannot
    encode, and after the folder substitution it has not the shape of the
    pattern. In both cases the records before it are rewritten and have
    their warnings, that record and those behind it are untouched, and no
    count is returned. *)
Theorem replace_image_urls_first_bad_record (st : process) :
  forallb (entry_runs is_Nd encodes) (json_data st) = false ->
  exists pre e rest,
    json_data st = pre ++ e :: rest
    /\ forallb (entry_runs is_Nd encodes) pre = true
    /\ entry_runs is_Nd encodes e = false
    /\ UpdateImageUrls.replace_image_urls is_Nd encodes st
       = (Raised (if url_record_ok e
                  then UnicodeEncodeError else AttributeError),
          Process (map (with_new_image is_Nd) pre ++ e :: rest)
                  (stdout st ++ url_warnings is_Nd 1 pre) (files st))
    /\ (url_record_ok e = true ->
        exists s,
          image_url_of e = Some s
          /\ forallb encodes s = false
          /\ forall p ds tail,
               ds <> [] -> forallb is_Nd ds = true ->
               tail = [] \/ tail = [10] ->
               str_replace UpdateImageUrls.old_folder
                           UpdateImageUrls.new_folder s
               <> p ++ py "Atlas" ++ ds ++ py ".png" ++ tail).
Proof.
  intros Hd.
  destruct (replace_image_urls_raises st Hd)
    as (pre & e & rest & Hdata & Hpre & He & Hrun).
  exists pre, e, rest. repeat (split; [done|]).
  intros Hok. unfold entry_runs in He. rewrite Hok, andb_true_l in He.
  destruct (warning_prints_false e He) as (s & Hs & _ & Hc & Henc).
  exists s. split; [done|]. split; [done|].
  by apply no_match_no_shape.
Qed.

End UrlRuns.

Lemma replace_image_urls_first_bad_record_witness :
  exists pre e rest,
    [JDict [(py "meta", JDict [(py "image", JStr (py "Atlas1.png"))])];
     JDict [(py "meta", JNull)];
     JDict [(py "meta", JDict [(py "image", JStr (py "Atlas2.png"))])]]
    = pre ++ e :: rest
    /\ forallb (entry_runs ascii_digit utf8_encodes) pre = true
    /\ entry_runs ascii_digit utf8_encodes e = false
    /\ UpdateImageUrls.replace_image_urls ascii_digit utf8_encodes
         (Process
            [JDict [(py "meta", JDict [(py "image", JStr (py "Atlas1.png"))])];
             JDict [(py "meta", JNull)];
             JDict [(py "meta", JDict [(py "image", JStr (py "Atlas2.png"))])]]
            [] [])
       = (Raised (if url_record_ok e
                  then UnicodeEncodeError else AttributeError),
          Process (map (with_new_image ascii_digit) pre ++ e :: rest)
                  ([] ++ url_warnings ascii_digit 1 pre) []).
Proof.
  destruct (replace_image_urls_first_bad_record ascii_digit utf8_encodes
              (fun c _ => eq_refl)
              (Process
                 [JDict [(py "meta",
                          JDict [(py "image", JStr (py "Atlas1.png"))])];
                  JDict [(py "meta", JNull)];
                  JDict [(py "meta",
                          JDict [(py "image", JStr (py "Atlas2.png"))])]]
                 [] []) eq_refl)
    as (pre & e & rest & H1 & H2 & H3 & H4 & _).
  by exists pre, e, rest.
Defined.



(** ** The rewrite of a URL, for every URL *)

Section Rewrite.

Variable is_Nd : N -> bool.
Variable encodes : N -> bool.

(** A match at the start of a string, in full. *)
Lemma re_subn_at_match s k :
  UpdateImageUrls.match_at is_Nd s = Some k ->
  exists ds tail,
    s = py "Atlas" ++ ds ++ py ".png" ++ tail
    /\ UpdateImageUrls.at_dollar tail = true
    /\ UpdateImageUrls.re_subn is_Nd s
       = (py "Atlas" ++ py "-" ++ ds ++ py ".png" ++ tail, 1%nat).
Proof.
  intros Hm.
  destruct (match_at_inv is_Nd s k Hm) as (ds & tail & Hs & Hk & _ & _ & Ht).
  exists ds, tail. split; [done|]. split; [done|].
  unfold UpdateImageUrls.re_subn. rewrite (subn_from_match _ _ _ Hm).
  subst s k.
  change (drop 1 (py "Atlas" ++ ds ++ py ".png" ++ tail))
    with (py "tlas" ++ ds ++ py ".png" ++ tail).
  change (drop 5 (py "Atlas" ++ ds ++ py ".png" ++ tail))
    with (ds ++ py ".png" ++ tail).
  replace (5 + length ds + 4 - 1)%nat
    with (length (py "tlas" ++ ds ++ py ".png")).
  2:{ rewrite !length_app. change (length (py "tlas")) with 4%nat.
      change (length (py ".png")) with 4%nat. lia. }
  replace (py "tlas" ++ ds ++ py ".png" ++ tail)
    with ((py "tlas" ++ ds ++ py ".png") ++ tail)
    by (by rewrite <- !app_assoc).
  rewrite subn_from_skip.
  pose proof (re_subn_tail is_Nd tail Ht) as Hz.
  unfold UpdateImageUrls.re_subn in Hz.
  rewrite Hz. by rewrite take_app_length.
Qed.

(** The pattern matches at most once, and a match makes the string one
    character longer. *)
Lemma re_subn_count_length s :
  (snd (UpdateImageUrls.re_subn is_Nd s) <= 1)%nat
  /\ length (fst (UpdateImageUrls.re_subn is_Nd s))
     = (length s + snd (UpdateImageUrls.re_subn is_Nd s))%nat.
Proof.
  induction s as [|c r [IH1 IH2]]; [split; simpl; lia|].
  destruct (UpdateImageUrls.match_at is_Nd (c :: r)) as [k|] eqn:E.
  - destruct (re_subn_at_match _ _ E) as (ds & tail & Hs & _ & Hr).
    rewrite Hr, Hs. cbn [fst snd]. split; [lia|].
    rewrite !length_app.
    change (length (py "Atlas")) with 5%nat.
    change (length (py "-")) with 1%nat.
    change (length (py ".png")) with 4%nat. lia.
  - rewrite re_subn_skip by done. simpl. split; [done|]. by rewrite IH2.
Qed.

(** The folder name and its replacement have one length. *)
Lemma str_replace_length old new s :
  length new = length old -> old <> [] ->
  length (str_replace old new s) = length s.
Proof.
  intros Hlen Hne.
  induction s as [s IH] using (induction_ltof1 _ (@length N)).
  unfold ltof in IH. destruct s as [|c r]; [done|].
  destruct (startswith old (c :: r)) eqn:E.
  - rewrite (startswith_inv _ _ E) at 1.
    rewrite str_replace_here by done.
    assert (Hle : (length old <= length (c :: r))%nat).
    { pose proof (proj1 (startswith_take _ _) E) as Ht.
      apply (f_equal length) in Ht. rewrite length_take in Ht. lia. }
    assert (Hpos : (0 < length old)%nat) by (destruct old; [done|simpl; lia]).
    rewrite length_app, IH; rewrite length_drop; lia.
  - rewrite str_replace_skip by done. simpl. f_equal. apply IH. simpl. lia.
Qed.

Hypothesis Nd_ascii : forall c, c < 128 -> is_Nd c = ascii_digit c.

(** X9: [update_image_url] never makes a URL shorter, and what it does to
    the length tells whether the pattern matched. When the URL, after the
    folder substitution, ends with [Atlas], digits and [.png] (or with these
    before one final newline), the function returns a string one character,
    the hyphen, longer and prints nothing. When it does not, the function
    prints the warning and returns a string of the length of the URL,
    provided stdout can encode the URL; when stdout cannot, the function
    ends on [UnicodeEncodeError] and nothing is printed. *)
Theorem update_image_url_length (s : str) (st : process) :
  (forall p ds tail,
     ds <> [] -> forallb is_Nd ds = true -> tail = [] \/ tail = [10] ->
     str_replace UpdateImageUrls.old_folder UpdateImageUrls.new_folder s
     = p ++ py "Atlas" ++ ds ++ py ".png" ++ tail ->
     exists r,
       UpdateImageUrls.update_image_url is_Nd encodes (JStr s) st
       = (Returned r, st)
       /\ length r = S (length s))
  /\ ((forall p ds tail,
         ds <> [] -> forallb is_Nd ds = true -> tail = [] \/ tail = [10] ->
         str_replace UpdateImageUrls.old_folder UpdateImageUrls.new_folder s
         <> p ++ py "Atlas" ++ ds ++ py ".png" ++ tail) ->
      (forallb encodes s = true ->
       exists r,
         UpdateImageUrls.update_image_url is_Nd encodes (JStr s) st
         = (Returned r,
            Process (json_data st)
              (stdout st
               ++ [py "Warning: URL '" ++ s
                   ++ py "' does not match the expected pattern for filename modification."])
              (files st))
         /\ length r = length s)
      /\ (forallb encodes s = false ->
          UpdateImageUrls.update_image_url is_Nd encodes (JStr s) st
          = (Raised UnicodeEncodeError, st))).
Proof.
  pose proof (re_subn_count_length
                (str_replace UpdateImageUrls.old_folder
                             UpdateImageUrls.new_folder s)) as [_ Hlen].
  rewrite str_replace_length in Hlen by done.
  split.
  - intros p ds tail Hne Hds Ht Hv.
    assert (Hr : UpdateImageUrls.re_subn is_Nd
                   (str_replace UpdateImageUrls.old_folder
                                UpdateImageUrls.new_folder s)
                 = (p ++ py "Atlas" ++ py "-" ++ ds ++ py ".png" ++ tail,
                    1%nat)).
    { rewrite Hv. apply (re_subn_shape is_Nd Nd_ascii); [done|done|].
      by destruct Ht as [-> | ->]. }
    rewrite update_image_url_eq. unfold pattern_count, rewritten.
    rewrite Hr in Hlen |- *. cbn [fst snd] in Hlen |- *.
    eexists. split; [reflexivity|]. lia.
  - intros Hno.
    pose proof (no_shape_no_match is_Nd _ Hno) as Hz.
    rewrite Hz in Hlen. cbn [fst snd] in Hlen.
    split.
    + intros Henc. rewrite update_image_url_eq.
      unfold pattern_count, rewritten. rewrite Hz. cbn [fst snd Nat.eqb].
      rewrite Henc. eexists. split; [reflexivity|]. lia.
    + intros Henc. rewrite update_image_url_eq.
      unfold pattern_count. rewrite Hz. cbn [snd Nat.eqb].
      by rewrite Henc.
Qed.

(** The rewrite of a rewritten string is the string. *)
Lemma rewritten_idempotent s :
  rewritten is_Nd (rewritten is_Nd s) = rewritten is_Nd s
  /\ pattern_count is_Nd (rewritten is_Nd s) = O.
Proof.
  unfold rewritten, pattern_count.
  set (v := str_replace UpdateImageUrls.old_folder
                        UpdateImageUrls.new_folder s).
  assert (Hv : forall i, startswith UpdateImageUrls.old_folder (drop i v)
                         = false) by apply old_folder_gone.
  destruct (snd (UpdateImageUrls.re_subn is_Nd v)) as [|n] eqn:Hn.
  - rewrite (re_subn_zero is_Nd v Hn).
    rewrite (str_replace_absent _ _ v Hv).
    by rewrite (re_subn_zero is_Nd v Hn).
  - assert (Hn' : snd (UpdateImageUrls.re_subn is_Nd v) <> O) by lia.
    destruct (re_subn_inv is_Nd v Hn') as (p & ds & tail & Hs & Hne & Hds & Ht).
    rewrite Hs, (re_subn_shape is_Nd Nd_ascii) by done. cbn [fst snd].
    set (r := p ++ py "Atlas" ++ py "-" ++ ds ++ py ".png" ++ tail).
    assert (H1 : str_replace UpdateImageUrls.old_folder
                   UpdateImageUrls.new_folder r = r).
    { apply str_replace_absent.
      apply (hyphen_no_occurrence is_Nd Nd_ascii); [done|done|].
      intros i. rewrite <- Hs. apply Hv. }
    assert (H2 : UpdateImageUrls.re_subn is_Nd r = (r, O)).
    { apply re_subn_none. intros i.
      by apply (hyphenated_no_match is_Nd Nd_ascii). }
    by rewrite H1, H2.
Qed.

(** What a call returns is the rewritten string. *)
Lemma update_image_url_returned url st r st1 :
  UpdateImageUrls.update_image_url is_Nd encodes (JStr url) st
  = (Returned r, st1) ->
  r = rewritten is_Nd url.
Proof.
  rewrite update_image_url_eq.
  destruct (pattern_count is_Nd url =? 0)%nat;
    [destruct (forallb encodes url)|]; by intros [= <- <-].
Qed.

(** X10: the rewrite is idempotent for every URL, whether the pattern
    matches or not. When [update_image_url] returns a string, the two steps
    of the rewrite leave that string as it is; a second call, on the string,
    finds no match and prints the warning, which quotes the string: it
    returns the string when stdout can encode it, and ends on
    [UnicodeEncodeError] when it cannot. *)
Theorem update_image_url_twice (url : str) (st : process) r st1 :
  UpdateImageUrls.update_image_url is_Nd encodes (JStr url) st
  = (Returned r, st1) ->
  UpdateImageUrls.re_subn is_Nd
    (str_replace UpdateImageUrls.old_folder UpdateImageUrls.new_folder r)
  = (r, O)
  /\ (forallb encodes r = true ->
      UpdateImageUrls.update_image_url is_Nd encodes (JStr r) st1
      = (Returned r,
         Process (json_data st1)
           (stdout st1
            ++ [py "Warning: URL '" ++ r
                ++ py "' does not match the expected pattern for filename modification."])
           (files st1)))
  /\ (forallb encodes r = false ->
      UpdateImageUrls.update_image_url is_Nd encodes (JStr r) st1
      = (Raised UnicodeEncodeError, st1)).
Proof.
  intros Hcall. apply update_image_url_returned in Hcall as ->.
  destruct (rewritten_idempotent url) as [H1 H2].
  split.
  - unfold rewritten in H1 at 1. unfold pattern_count in H2.
    destruct (UpdateImageUrls.re_subn is_Nd _) as [a b].
    cbn [fst snd] in H1, H2. by rewrite H1, H2.
  - split; intros Henc; rewrite update_image_url_eq, H2, H1;
      cbn [Nat.eqb]; by rewrite Henc.
Qed.

Lemma url_changes_with_new_image e :
  url_changes is_Nd (with_new_image is_Nd e) = false.
Proof.
  destruct (url_changes is_Nd e) eqn:Hc.
  - destruct (image_url_of e) as [s|] eqn:Hs.
    + destruct (url_changes_true is_Nd e s Hc Hs) as (Hi & _ & _).
      unfold url_changes at 1. rewrite Hi.
      rewrite (proj1 (rewritten_idempotent s)), str_eqb_refl.
      apply andb_false_r.
    + unfold url_changes in Hc. by rewrite Hs in Hc.
  - by rewrite url_changes_false.
Qed.

Lemma url_record_ok_with_new_image e :
  url_record_ok e = true -> url_record_ok (with_new_image is_Nd e) = true.
Proof.
  intros Hok. destruct (url_changes is_Nd e) eqn:Hc;
    [|by rewrite url_changes_false].
  unfold with_new_image. rewrite Hc.
  destruct e as [| | | | | |d]; try done.
  destruct (dict_get (py "meta") d) as [[| | | | | |m]|]; try done.
  destruct (dict_get (py "image") m) as [[| | | |s| |]|]; try done.
  unfold url_record_ok. by rewrite !dict_get_set_eq.
Qed.

(** In a string that the rewrite leaves as it is the pattern finds no
    match: a match makes the string longer. *)
Lemma rewritten_fixed_no_match s :
  rewritten is_Nd s = s -> pattern_count is_Nd s = O.
Proof.
  unfold rewritten, pattern_count. intros H.
  pose proof (re_subn_count_length
                (str_replace UpdateImageUrls.old_folder
                             UpdateImageUrls.new_folder s)) as [_ Hlen].
  rewrite str_replace_length, H in Hlen by done. lia.
Qed.

(** A rewritten record gets the warning of the pattern whenever it has a
    URL, so its turn of the loop runs just when stdout can encode the URL. *)
Lemma entry_runs_with_new_image e :
  url_record_ok e = true ->
  entry_runs is_Nd encodes (with_new_image is_Nd e)
  = url_encodable encodes (with_new_image is_Nd e).
Proof.
  intros Hok. unfold entry_runs.
  rewrite url_record_ok_with_new_image, andb_true_l by done.
  pose proof (url_changes_with_new_image e) as Hc.
  unfold url_changes in Hc. unfold warning_prints, url_encodable.
  destruct (image_url_of (with_new_image is_Nd e)) as [[|c s]|]; try done.
  change (str_eqb (c :: s) []) with false in Hc.
  rewrite andb_true_l in Hc. apply negb_false_iff, str_eqb_eq in Hc.
  by rewrite (rewritten_fixed_no_match _ Hc).
Qed.

(** X11: a second run of [replace_image_urls] changes nothing. When a first
    run returns, a second run, on the list the first left, prints the
    warning of the pattern for every URL that is not empty; when stdout can
    encode the URLs of that list, it returns the same list and the count 0,
    and when there is one it cannot encode, it ends on
    [UnicodeEncodeError]. *)
Theorem replace_image_urls_twice (st : process) out n st1 :
  UpdateImageUrls.replace_image_urls is_Nd encodes st
  = (Returned (out, n), st1) ->
  json_data st1 = out
  /\ (forallb (url_encodable encodes) out = true ->
      exists st2,
        UpdateImageUrls.replace_image_urls is_Nd encodes st1
        = (Returned (out, O), st2)
        /\ json_data st2 = out)
  /\ (forallb (url_encodable encodes) out = false ->
      exists st2,
        UpdateImageUrls.replace_image_urls is_Nd encodes st1
        = (Raised UnicodeEncodeError, st2)).
Proof.
  intros Hrun.
  destruct (forallb (entry_runs is_Nd encodes) (json_data st)) eqn:Hruns.
  2:{ destruct (replace_image_urls_raises is_Nd encodes st Hruns)
        as (pre & e & rest & _ & _ & _ & Hr).
      rewrite Hr in Hrun. discriminate. }
  rewrite (replace_image_urls_returns is_Nd encodes st Hruns) in Hrun.
  injection Hrun as <- <- <-.
  set (out := map (with_new_image is_Nd) (json_data st)).
  set (st1 := Process out _ (files st)).
  assert (Hok : forall e, In e (json_data st) -> url_record_ok e = true).
  { intros e He. rewrite forallb_forall in Hruns.
    specialize (Hruns e He). unfold entry_runs in Hruns.
    by apply andb_true_iff in Hruns as [H _]. }
  assert (Hsame : forallb (entry_runs is_Nd encodes) out
                  = forallb (url_encodable encodes) out).
  { unfold out. clear -Hok Nd_ascii.
    induction (json_data st) as [|e l IH]; [done|].
    simpl. rewrite entry_runs_with_new_image by (apply Hok; by left).
    f_equal. apply IH. intros e' He'. apply Hok. by right. }
  split; [done|]. split.
  - intros Henc. rewrite <- Hsame in Henc.
    pose proof (replace_image_urls_returns is_Nd encodes st1 Henc) as H2.
    assert (Hmap : map (with_new_image is_Nd) (json_data st1) = out).
    { simpl. unfold out. rewrite map_map. apply map_ext. intros e.
      apply url_changes_false, url_changes_with_new_image. }
    assert (Hzero : length (List.filter (url_changes is_Nd) (json_data st1))
                    = O).
    { simpl. unfold out. clear -Nd_ascii.
      induction (json_data st) as [|e l IH]; [done|].
      simpl. by rewrite url_changes_with_new_image. }
    rewrite Hmap, Hzero in H2.
    eexists. split; [exact H2|]. reflexivity.
  - intros Henc. rewrite <- Hsame in Henc.
    destruct (replace_image_urls_raises is_Nd encodes st1 Henc)
      as (pre & e & rest & Hdata & _ & _ & Hr).
    assert (He : url_record_ok e = true).
    { assert (Hin : In e out).
      { change out with (json_data st1). rewrite Hdata.
        apply in_or_app. right. by left. }
      apply in_map_iff in Hin as (e0 & <- & Hin).
      by apply url_record_ok_with_new_image, Hok. }
    rewrite He in Hr. eexists. exact Hr.
Qed.

End Rewrite.

Lemma update_image_url_length_witness :
  exists r,
    UpdateImageUrls.update_image_url ascii_digit utf8_encodes
      (JStr (py "atlas-offchain-images/Atlas12.png")) (Process [] [] [])
    = (Returned r, Process [] [] [])
    /\ length r = 34%nat.
Proof.
  exact (proj1 (update_image_url_length ascii_digit utf8_encodes
                  (fun c _ => eq_refl)
                  (py "atlas-offchain-images/Atlas12.png") (Process [] [] []))
               (py "atlas-images-offchain/") (py "12") []
               ltac:(discriminate) eq_refl (or_introl eq_refl) eq_refl).
Defined.

Lemma update_image_url_twice_witness :
  UpdateImageUrls.re_subn ascii_digit
    (str_replace UpdateImageUrls.old_folder UpdateImageUrls.new_folder
       (py "https://x.io/atlas-images-offchain/cover.png"))
  = (py "https://x.io/atlas-images-offchain/cover.png", O)
  /\ UpdateImageUrls.update_image_url ascii_digit utf8_encodes
       (JStr (py "https://x.io/atlas-images-offchain/cover.png"))
       (Process [] [py "Warning: URL 'https://x.io/atlas-offchain-images/cover.png' does not match the expected pattern for filename modification."] [])
     = (Returned (py "https://x.io/atlas-images-offchain/cover.png"),
        Process []
          [py "Warning: URL 'https://x.io/atlas-offchain-images/cover.png' does not match the expected pattern for filename modification.";
           py "Warning: URL 'https://x.io/atlas-images-offchain/cover.png' does not match the expected pattern for filename modification."]
          []).
Proof.
  destruct (update_image_url_twice ascii_digit utf8_encodes
              (fun c _ => eq_refl)
              (py "https://x.io/atlas-offchain-images/cover.png")
              (Process [] [] [])
              (py "https://x.io/atlas-images-offchain/cover.png")
              (Process [] [py "Warning: URL 'https://x.io/atlas-offchain-images/cover.png' does not match the expected pattern for filename modification."] [])
              eq_refl)
    as (H1 & H2 & _).
  split; [exact H1|]. exact (H2 eq_refl).
Defined.

Lemma replace_image_urls_twice_witness :
  exists st2,
    UpdateImageUrls.replace_image_urls ascii_digit utf8_encodes
      (Process
         [JDict [(py "meta", JDict [(py "image", JStr (py "Atlas-1.png"))])];
          JDict [(py "meta",
                  JDict [(py "image",
                          JStr (py "atlas-images-offchain/a.png"))])]]
         [py "Warning: URL 'atlas-offchain-images/a.png' does not match the expected pattern for filename modification."]
         [])
    = (Returned
         ([JDict [(py "meta", JDict [(py "image", JStr (py "Atlas-1.png"))])];
           JDict [(py "meta",
                   JDict [(py "image",
                           JStr (py "atlas-images-offchain/a.png"))])]],
          O),
       st2)
    /\ json_data st2
       = [JDict [(py "meta", JDict [(py "image", JStr (py "Atlas-1.png"))])];
          JDict [(py "meta",
                  JDict [(py "image",
                          JStr (py "atlas-images-offchain/a.png"))])]].
Proof.
  destruct (replace_image_urls_twice ascii_digit utf8_encodes
              (fun c _ => eq_refl)
              (Process
                 [JDict [(py "meta",
                          JDict [(py "image", JStr (py "Atlas1.png"))])];
                  JDict [(py "meta",
                          JDict [(py "image",
                                  JStr (py "atlas-offchain-images/a.png"))])]]
                 [] [])
              [JDict [(py "meta",
                       JDict [(py "image", JStr (py "Atlas-1.png"))])];
               JDict [(py "meta",
                       JDict [(py "image",
                               JStr (py "atlas-images-offchain/a.png"))])]]
              2%nat
              (Process
                 [JDict [(py "meta",
                          JDict [(py "image", JStr (py "Atlas-1.png"))])];
                  JDict [(py "meta",
                          JDict [(py "image",
                                  JStr (py "atlas-images-offchain/a.png"))])]]
                 [py "Warning: URL 'atlas-offchain-images/a.png' does not match the expected pattern for filename modification."]
                 [])
              eq_refl)
    as (_ & H & _).
  exact (H eq_refl).
Defined.

(** ** Further properties of the loader of the IdList *)

Lemma universal_newlines_plain t :
  forallb (fun c => negb (c =? 13)) t = true ->
  ReplaceIds.universal_newlines t = t.
Proof.
  induction t as [|c r IH]; [done|]. simpl.
  intros [Hc Hr]%andb_true_iff. apply negb_true_iff in Hc.
  rewrite Hc. f_equal. by apply IH.
Qed.

Lemma split_lines_line s t :
  forallb (fun c => negb (c =? 10)) s = true ->
  ReplaceIds.split_lines (s ++ 10 :: t)
  = (s ++ [10]) :: ReplaceIds.split_lines t.
Proof.
  induction s as [|c s IH]; [done|]. simpl.
  intros [Hc Hs]%andb_true_iff. apply negb_true_iff in Hc.
  rewrite Hc. by rewrite IH.
Qed.

Lemma lstrip_plain s :
  match head s with Some c => negb (isspace c) | None => true end = true ->
  lstrip s = s.
Proof.
  destruct s as [|c s]; [done|]. simpl. intros H%negb_true_iff. by rewrite H.
Qed.

Lemma clean_id_inv s :
  clean_id s = true ->
  s <> []
  /\ match head s with Some c => negb (isspace c) | None => true end = true
  /\ match last s with Some c => negb (isspace c) | None => true end = true
  /\ forallb (fun c => negb (c =? 10) && negb (c =? 13)) s = true.
Proof.
  unfold clean_id.
  intros [[[H1 H2]%andb_true_iff H3]%andb_true_iff H4]%andb_true_iff.
  apply negb_true_iff, bool_decide_eq_false in H1. done.
Qed.

Lemma strip_clean_line s : clean_id s = true -> strip (s ++ [10]) = s.
Proof.
  intros (Hne & Hh & Hl & _)%clean_id_inv. unfold strip.
  rewrite lstrip_plain by (by destruct s).
  unfold rstrip. rewrite reverse_snoc.
  change (lstrip (10 :: reverse s)) with (lstrip (reverse s)).
  rewrite lstrip_plain by (by rewrite head_reverse).
  apply reverse_involutive.
Qed.

Lemma file_lines_join ids :
  forallb clean_id ids = true ->
  ReplaceIds.file_lines (join_lines ids) = map (fun s => s ++ [10]) ids.
Proof.
  intros Hc. unfold ReplaceIds.file_lines.
  rewrite universal_newlines_plain.
  - unfold join_lines. induction ids as [|s ids IH]; [done|].
    simpl in Hc. apply andb_true_iff in Hc as [Hs Hc].
    apply clean_id_inv in Hs as (_ & _ & _ & Hs).
    simpl. rewrite <- app_assoc. simpl. rewrite split_lines_line.
    + by rewrite IH.
    + apply forallb_forall. intros c Hin. rewrite forallb_forall in Hs.
      pose proof (Hs c Hin) as H. by apply andb_true_iff in H as [H _].
  - unfold join_lines. induction ids as [|s ids IH]; [done|].
    simpl in Hc. apply andb_true_iff in Hc as [Hs Hc].
    apply clean_id_inv in Hs as (_ & _ & _ & Hs).
    simpl. rewrite forallb_app, forallb_app. simpl.
    rewrite IH by done. rewrite !andb_true_r.
    apply forallb_forall. intros c Hin. rewrite forallb_forall in Hs.
    pose proof (Hs c Hin) as H. by apply andb_true_iff in H as [_ H].
Qed.

Lemma stripped_nonblank_lines ids :
  forallb clean_id ids = true ->
  ReplaceIds.stripped_nonblank (map (fun s => s ++ [10]) ids) = ids.
Proof.
  induction ids as [|s ids IH]; [done|]. simpl.
  intros [Hs Hc]%andb_true_iff.
  rewrite strip_clean_line by done.
  destruct (clean_id_inv s Hs) as (Hne & _).
  rewrite bool_decide_eq_false_2 by done. simpl. by rewrite IH.
Qed.

(** X12: a round trip. A file that holds, one per line with a line feed
    after each, IDs that are not empty, have no whitespace at either end
    and no line break inside, is read by [read_ids] as exactly these IDs, in
    their order, with nothing printed. *)
Theorem read_ids_round_trip (fs : filesystem) (path : str)
    (ids : list str) (st : process) :
  read_text fs path = ReadOk (join_lines ids) ->
  forallb clean_id ids = true ->
  ReplaceIds.read_ids fs path st = (Returned ids, st).
Proof.
  intros Ht Hc. unfold ReplaceIds.read_ids. rewrite Ht.
  by rewrite file_lines_join, stripped_nonblank_lines.
Qed.

Lemma read_ids_round_trip_witness :
  ReplaceIds.read_ids
    {| read_text := fun _ => ReadOk (join_lines [py "id 1"; py "b"]);
       load_json := fun _ => ReadFileNotFound;
       write_error := fun _ => None |}
    (py "ids.txt") (Process [] [] [])
  = (Returned [py "id 1"; py "b"], Process [] [] []).
Proof.
  exact (read_ids_round_trip
           {| read_text := fun _ => ReadOk (join_lines [py "id 1"; py "b"]);
              load_json := fun _ => ReadFileNotFound;
              write_error := fun _ => None |}
           (py "ids.txt") [py "id 1"; py "b"] (Process [] [] [])
           eq_refl eq_refl).
Defined.

Lemma universal_newlines_no_cr s :
  forallb (fun c => negb (c =? 13)) (ReplaceIds.universal_newlines s) = true.
Proof.
  induction s as [s IH] using (induction_ltof1 _ (@length N)).
  unfold ltof in IH. destruct s as [|c r]; [done|]. simpl.
  destruct (c =? 13) eqn:E.
  - destruct r as [|d r']; [done|].
    destruct (d =? 10); cbn [forallb]; (apply andb_true_iff; split; [done|]);
      apply IH; simpl; lia.
  - cbn [forallb]. rewrite E. apply IH. simpl. lia.
Qed.

(** No line feed is left in a stripped line. *)
Lemma strip_line_no_lf l body :
  l = body \/ l = body ++ [10] -> ~ In 10 body -> ~ In 10 (strip l).
Proof.
  intros Hl Hb Hin.
  destruct (strip_spec l) as (a & b & Hs & _ & _ & _ & Hlast).
  assert (Hsub : forall x, In x (strip l) -> In x l).
  { intros x Hx. rewrite Hs. apply in_or_app. right.
    apply in_or_app. by left. }
  destruct Hl as [-> | ->]; [by apply Hb, Hsub|].
  destruct b as [|x b _] using rev_ind.
  - rewrite app_nil_r in Hs.
    assert (Hl10 : last (strip (body ++ [10])) = Some 10).
    { destruct (strip (body ++ [10])) as [|y ys] eqn:Es using rev_ind;
        [done|].
      rewrite app_assoc in Hs. apply app_inj_tail in Hs as [_ ->].
      apply last_snoc. }
    by specialize (Hlast 10 Hl10).
  - rewrite !app_assoc in Hs. apply app_inj_tail in Hs as [Hs _].
    apply Hb. rewrite Hs. apply in_or_app. left. apply in_or_app. by right.
Qed.

(** X13: every ID that [read_ids] returns is not empty, has no whitespace
    at either end and holds neither a carriage return nor a line feed; so
    the IDs it returns, written one per line, are read back as they are. *)
Theorem read_ids_clean (fs : filesystem) (path text : str) (st : process) :
  read_text fs path = ReadOk text ->
  exists ids,
    ReplaceIds.read_ids fs path st = (Returned ids, st)
    /\ forallb clean_id ids = true
    /\ ReplaceIds.stripped_nonblank (ReplaceIds.file_lines (join_lines ids))
       = ids.
Proof.
  intros Ht. eexists. unfold ReplaceIds.read_ids. rewrite Ht.
  split; [reflexivity|].
  assert (Hclean : forallb clean_id
            (ReplaceIds.stripped_nonblank (ReplaceIds.file_lines text))
          = true).
  { rewrite stripped_nonblank_filter. apply forallb_forall. intros s Hs.
    apply in_map_iff in Hs as (l & <- & Hl).
    apply filter_In in Hl as [Hin Hnb].
    destruct (strip_spec l) as (a & b & Hsl & _ & _ & Hh & Hla).
    unfold clean_id. repeat (apply andb_true_iff; split).
    - apply negb_true_iff, bool_decide_eq_false. intros H.
      apply strip_blank in H. by rewrite H in Hnb.
    - destruct (head (strip l)) as [c|] eqn:E; [|done].
      by rewrite (Hh c eq_refl).
    - destruct (last (strip l)) as [c|] eqn:E; [|done].
      by rewrite (Hla c eq_refl).
    - apply forallb_forall. intros c Hc.
      apply andb_true_iff. split; apply negb_true_iff, N.eqb_neq; intros ->.
      + pose proof (split_lines_shape (ReplaceIds.universal_newlines text))
          as Hshape.
        rewrite Forall_forall in Hshape.
        destruct (Hshape l) as (body & Hb & _ & Hnot);
          [by apply list_elem_of_In|].
        by apply (strip_line_no_lf l body Hb Hnot).
      + pose proof (universal_newlines_no_cr text) as Hcr.
        rewrite forallb_forall in Hcr.
        assert (Hin13 : In 13 (ReplaceIds.universal_newlines text)).
        { rewrite <- (split_lines_concat (ReplaceIds.universal_newlines text)).
          apply in_concat. exists l. split; [exact Hin|].
          rewrite Hsl. apply in_or_app. right. apply in_or_app. by left. }
        by specialize (Hcr 13 Hin13). }
  split; [exact Hclean|].
  by rewrite file_lines_join, stripped_nonblank_lines.
Qed.

Lemma read_ids_clean_witness :
  exists ids,
    ReplaceIds.read_ids
      {| read_text := fun _ => ReadOk (py " a" ++ [13; 10; 9; 13] ++ py "b c ");
         load_json := fun _ => ReadFileNotFound;
         write_error := fun _ => None |}
      (py "ids.txt") (Process [] [] [])
    = (Returned ids, Process [] [] [])
    /\ forallb clean_id ids = true
    /\ ReplaceIds.stripped_nonblank (ReplaceIds.file_lines (join_lines ids))
       = ids.
Proof.
  exact (read_ids_clean
           {| read_text := fun _ => ReadOk (py " a" ++ [13; 10; 9; 13]
                                            ++ py "b c ");
              load_json := fun _ => ReadFileNotFound;
              write_error := fun _ => None |}
           (py "ids.txt") (py " a" ++ [13; 10; 9; 13] ++ py "b c ")
           (Process [] [] []) eq_refl).
Defined.

(** ** When the output cannot be written *)



Section UrlWrite.

Variable is_Nd : N -> bool.
Variable encodes : N -> bool.


Hypothesis Nd_ascii : forall c, c < 128 -> is_Nd c = ascii_digit c.

(** X16: in a URL that [update_image_url] returns the old folder name does
    not occur, whatever the URL was and whether the pattern matched or
    not. *)
Theorem update_image_url_no_old_folder (url : str) (st : process) r st' :
  UpdateImageUrls.update_image_url is_Nd encodes (JStr url) st
  = (Returned r, st') ->
  forall i, startswith (py "atlas-offchain-images") (drop i r) = false.
Proof.
  intros Hcall. apply update_image_url_returned in Hcall as ->.
  unfold rewritten.
  set (v := str_replace UpdateImageUrls.old_folder
                        UpdateImageUrls.new_folder url).
  assert (Hv : forall i, startswith UpdateImageUrls.old_folder (drop i v)
                         = false) by apply old_folder_gone.
  destruct (snd (UpdateImageUrls.re_subn is_Nd v)) as [|n] eqn:Hn.
  - by rewrite (re_subn_zero is_Nd v Hn).
  - assert (Hn' : snd (UpdateImageUrls.re_subn is_Nd v) <> O) by lia.
    destruct (re_subn_inv is_Nd v Hn') as (p & ds & tail & Hs & Hne & Hds & Ht).
    rewrite Hs, (re_subn_shape is_Nd Nd_ascii) by done. cbn [fst].
    apply (hyphen_no_occurrence is_Nd Nd_ascii); [done|done|].
    intros i. rewrite <- Hs. apply Hv.
Qed.

End UrlWrite.


Lemma update_image_url_no_old_folder_witness :
  UpdateImageUrls.update_image_url ascii_digit utf8_encodes
    (JStr (py "atlas-offchain-atlas-offchain-images-images/Atlas1.png"))
    (Process [] [] [])
  = (Returned (py "atlas-offchain-atlas-images-offchain-images/Atlas-1.png"),
     Process [] [] [])
  /\ startswith (py "atlas-offchain-images")
       (drop 15 (py "atlas-offchain-atlas-images-offchain-images/Atlas-1.png"))
     = false.
Proof.
  split; [reflexivity|].
  exact (update_image_url_no_old_folder ascii_digit utf8_encodes
           (fun c _ => eq_refl)
           (py "atlas-offchain-atlas-offchain-images-images/Atlas1.png")
           (Process [] [] [])
           (py "atlas-offchain-atlas-images-offchain-images/Atlas-1.png")
           (Process [] [] []) eq_refl 15%nat).
Defined.
